(** * langchain-fax: the Fax.Plus tools of [langchain_fax/tools.py]

    A shallow embedding of the two tool classes [FaxPlusTool] and
    [FaxPlusStatusTool], of the package initialiser [langchain_fax/__init__.py],
    and the properties of their [_run] methods.

    Naming.  The specification speaks of the request fields in camel case; the
    code reads these dictionary keys:

      recipientNumber -> "fax_number"     filePath  -> "file_path"
      subject         -> "subject"        comment   -> "comment"
      faxId           -> "fax_id"         pageCount -> "pagecount"
      createdAt       -> "created_at"

    Python strings are modelled as [string]: sequences of characters whose code
    points are below 256. *)

From Stdlib Require Import ZArith List String Ascii Bool Lia.
From Stdlib Require Import SpecFloat DecimalString.
Import ListNotations.
Open Scope string_scope.
Open Scope Z_scope.

Set Implicit Arguments.
Set Warnings "-register-all".

(** ** Python values, exceptions and the interpreter monad *)

Module Py.

(** The objects [json.loads] builds: None, bool, int, float, str, list and dict.
    A dict keeps its insertion order, so it is an association list. *)
Inductive value : Type :=
| VNone
| VBool (b : bool)
| VInt (n : Z)
| VFloat (f : spec_float)
| VStr (s : string)
| VList (l : list value)
| VDict (d : list (string * value)).

(** [type(v).__name__] *)
Definition type_name (v : value) : string :=
  match v with
  | VNone => "NoneType"
  | VBool _ => "bool"
  | VInt _ => "int"
  | VFloat _ => "float"
  | VStr _ => "str"
  | VList _ => "list"
  | VDict _ => "dict"
  end.

(** [bool(v)], the test behind [if not v]. *)
Definition truthy (v : value) : bool :=
  match v with
  | VNone => false
  | VBool b => b
  | VInt n => negb (n =? 0)
  | VFloat (S754_zero _) => false
  | VFloat _ => true
  | VStr s => negb (s =? "")%string
  | VList l => match l with [] => false | _ => true end
  | VDict d => match d with [] => false | _ => true end
  end.

(** The exception classes the handlers tell apart.  [except json.JSONDecodeError]
    selects the first; [except Exception] takes all of them.  What is raised
    outside [Exception] (KeyboardInterrupt, SystemExit) is no failure of an
    operation and is not modelled. *)
Inductive exn_class : Type :=
| JSONDecodeError
| AttributeError
| TypeError
| ImportError
| OtherError (name : string).

Record exn : Type := Exn { exn_cls : exn_class; exn_msg : string }.

(** [str(e)] *)
Definition str_exn (e : exn) : string := exn_msg e.

Definition is_JSONDecodeError (e : exn) : bool :=
  match exn_cls e with JSONDecodeError => true | _ => false end.

Inductive result (A : Type) : Type :=
| Return (a : A)
| Raise (e : exn).
Arguments Return {A} a.
Arguments Raise {A} e.

(** A computation over an interpreter state [S]: it returns or raises, leaves
    a state, and logs the calls it made to the remote service. *)
Definition M (S E A : Type) : Type := S -> result A * S * list E.

Section Monad.
Context {S E : Type}.

Definition ret {A} (a : A) : M S E A := fun s => (Return a, s, []).

Definition raise {A} (e : exn) : M S E A := fun s => (Raise e, s, []).

Definition bind {A B} (m : M S E A) (k : A -> M S E B) : M S E B :=
  fun s =>
    match m s with
    | (Return a, s1, l1) =>
        match k a s1 with (r, s2, l2) => (r, s2, (l1 ++ l2)%list) end
    | (Raise e, s1, l1) => (Raise e, s1, l1)
    end.

Definition get : M S E S := fun s => (Return s, s, []).

Definition put (s : S) : M S E unit := fun _ => (Return tt, s, []).

Definition emit (ev : E) : M S E unit := fun s => (Return tt, s, [ev]).

Definition lift {A} (r : result A) : M S E A := fun s => (r, s, []).

(** [try: body except Exception as e: handler(e)] *)
Definition try_except {A} (body : M S E A) (handler : exn -> M S E A)
  : M S E A :=
  fun s =>
    match body s with
    | (Return a, s1, l1) => (Return a, s1, l1)
    | (Raise e, s1, l1) =>
        match handler e s1 with (r, s2, l2) => (r, s2, (l1 ++ l2)%list) end
    end.
End Monad.

Declare Scope py_scope.
Delimit Scope py_scope with py.
Notation "x <- m ;; k" := (bind m (fun x => k))
  (at level 61, m at next level, right associativity) : py_scope.
Notation "m ;;; k" := (bind m (fun _ => k))
  (at level 61, right associativity) : py_scope.

End Py.

(** ** The built-ins the handlers call *)

Module Builtins.
Import Py.

Definition LF : string := String (ascii_of_nat 10) "".

Fixpoint join (sep : string) (l : list string) : string :=
  match l with
  | [] => ""
  | [x] => x
  | x :: rest => x ++ sep ++ join sep rest
  end.

(** [int.__repr__] *)
Definition int_repr (n : Z) : string := NilZero.string_of_int (Z.to_int n).

(** *** [dict.get] *)

Fixpoint dict_lookup (d : list (string * value)) (key : string) : option value :=
  match d with
  | [] => None
  | (k, v) :: rest => if (k =? key)%string then Some v else dict_lookup rest key
  end.

(** [obj.get(key, default)]: only a dict has the method. *)
Definition py_get (obj : value) (key : string) (default : value) : result value :=
  match obj with
  | VDict d =>
      Return (match dict_lookup d key with Some v => v | None => default end)
  | _ =>
      Raise (Exn AttributeError
               ("'" ++ type_name obj ++ "' object has no attribute 'get'"))
  end.

(** [del d[key]], used to compare a request with the same request without a
    field. *)
Definition dict_remove (d : list (string * value)) (key : string)
  : list (string * value) :=
  filter (fun kv => negb (fst kv =? key)%string) d.

(** *** [str()] and [repr()], as an f-string applies them

    [float.__repr__] and [str.__repr__] belong to the interpreter and are taken
    as parameters. *)
Section Format.
Variable float_repr : spec_float -> string.
Variable str_repr : string -> string.

Fixpoint py_repr (v : value) : string :=
  match v with
  | VNone => "None"
  | VBool true => "True"
  | VBool false => "False"
  | VInt n => int_repr n
  | VFloat f => float_repr f
  | VStr s => str_repr s
  | VList l => "[" ++ join ", " (map py_repr l) ++ "]"
  | VDict d =>
      "{" ++ join ", "
               (map (fun kv => match kv with
                               | (k, x) => str_repr k ++ ": " ++ py_repr x
                               end) d) ++ "}"
  end.

Definition py_str (v : value) : string :=
  match v with
  | VStr s => s
  | _ => py_repr v
  end.

(** *** [json.dumps(obj, indent=2)] *)

Definition hex_digit (n : nat) : ascii :=
  match n with
  | 0 => "0" | 1 => "1" | 2 => "2" | 3 => "3" | 4 => "4" | 5 => "5"
  | 6 => "6" | 7 => "7" | 8 => "8" | 9 => "9" | 10 => "a" | 11 => "b"
  | 12 => "c" | 13 => "d" | 14 => "e" | _ => "f"
  end%char%nat.

(** ['\\u{0:04x}'.format(n)] for a code point below 256 *)
Definition u_escape (n : nat) : string :=
  "\u00" ++ String (hex_digit (n / 16)) (String (hex_digit (n mod 16)) "").

(** One character under [ESCAPE_ASCII]: a backslash, a double quote and
    everything outside [' '..'~'] is replaced. *)
Definition escape_char (c : ascii) : string :=
  let n := nat_of_ascii c in
  if (n =? 92)%nat then "\\"
  else if (n =? 34)%nat then String "\" (String c "")
  else if (n =? 8)%nat then "\b"
  else if (n =? 12)%nat then "\f"
  else if (n =? 10)%nat then "\n"
  else if (n =? 13)%nat then "\r"
  else if (n =? 9)%nat then "\t"
  else if ((32 <=? n) && (n <=? 126))%nat then String c ""
  else u_escape n.

Fixpoint escape_ascii (s : string) : string :=
  match s with
  | EmptyString => ""
  | String c rest => escape_char c ++ escape_ascii rest
  end.

Definition DQ : string := String (ascii_of_nat 34) "".

(** [py_encode_basestring_ascii] *)
Definition encode_basestring_ascii (s : string) : string :=
  DQ ++ escape_ascii s ++ DQ.

(** [floatstr] of the encoder *)
Definition floatstr (f : spec_float) : string :=
  match f with
  | S754_nan => "NaN"
  | S754_infinity false => "Infinity"
  | S754_infinity true => "-Infinity"
  | _ => float_repr f
  end.

Fixpoint spaces (n : nat) : string :=
  match n with O => "" | S k => " " ++ spaces k end.

(** ['\n' + _indent * _current_indent_level] with [_indent = '  '] *)
Definition newline_indent (level : nat) : string := LF ++ spaces (2 * level).

(** [_iterencode(o, level)], the chunks joined. *)
Fixpoint iterencode (level : nat) (o : value) : string :=
  match o with
  | VNone => "null"
  | VBool true => "true"
  | VBool false => "false"
  | VInt n => int_repr n
  | VFloat f => floatstr f
  | VStr s => encode_basestring_ascii s
  | VList [] => "[]"
  | VList l =>
      "[" ++ newline_indent (S level)
          ++ join ("," ++ newline_indent (S level))
                  (map (iterencode (S level)) l)
          ++ newline_indent level ++ "]"
  | VDict [] => "{}"
  | VDict d =>
      "{" ++ newline_indent (S level)
          ++ join ("," ++ newline_indent (S level))
                  (map (fun kv => match kv with
                                  | (k, x) =>
                                      encode_basestring_ascii k ++ ": "
                                        ++ iterencode (S level) x
                                  end) d)
          ++ newline_indent level ++ "}"
  end.

Definition json_dumps_indent2 (o : value) : string := iterencode 0 o.
End Format.

(** *** [os.path] (posixpath) and [str.lower] *)

Fixpoint rfind_from (c : ascii) (s : string) (i last : Z) : Z :=
  match s with
  | EmptyString => last
  | String a rest =>
      rfind_from c rest (i + 1) (if Ascii.eqb a c then i else last)
  end.

(** [s.rfind(c)]: the highest index of [c], or -1. *)
Definition rfind (c : ascii) (s : string) : Z := rfind_from c s 0 (-1).

Definition strlen (s : string) : Z := Z.of_nat (String.length s).

(** [s[i:]] and [s[:i]] for [0 <= i] *)
Definition slice_from (s : string) (i : Z) : string :=
  substring (Z.to_nat i) (String.length s - Z.to_nat i) s.

Definition slice_to (s : string) (i : Z) : string :=
  substring 0 (Z.to_nat i) s.

(** [s[i:i+1]] *)
Definition slice1 (s : string) (i : Z) : string :=
  substring (Z.to_nat i) 1 s.

(** [posixpath.basename] on a str. *)
Definition basename_str (p : string) : string :=
  let i := rfind "/" p + 1 in
  slice_from p i.

(** [os.path.basename(p)]: [os.fspath] refuses what is not a path. *)
Definition os_path_basename (p : value) : result string :=
  match p with
  | VStr s => Return (basename_str s)
  | _ =>
      Raise (Exn TypeError
               ("expected str, bytes or os.PathLike object, not "
                  ++ type_name p))
  end.

(** The [while filenameIndex < dotIndex] loop of [genericpath._splitext];
    [None] when the loop ends without returning. *)
Fixpoint splitext_loop (fuel : nat) (p : string) (filenameIndex dotIndex : Z)
  : option (string * string) :=
  match fuel with
  | O => None
  | S fuel' =>
      if filenameIndex <? dotIndex then
        if negb (slice1 p filenameIndex =? ".")%string
        then Some (slice_to p dotIndex, slice_from p dotIndex)
        else splitext_loop fuel' p (filenameIndex + 1) dotIndex
      else None
  end.

(** [os.path.splitext] on a str. *)
Definition splitext (p : string) : string * string :=
  let sepIndex := rfind "/" p in
  let dotIndex := rfind "." p in
  if sepIndex <? dotIndex then
    match splitext_loop (S (String.length p)) p (sepIndex + 1) dotIndex with
    | Some r => r
    | None => (p, "")
    end
  else (p, "").

(** The lower case of a code point below 256: the letters A-Z and the
    Latin-1 capitals U+00C0..U+00DE, the multiplication sign U+00D7 apart, move
    up by 32. *)
Definition lower_char (c : ascii) : ascii :=
  let n := nat_of_ascii c in
  if ((65 <=? n) && (n <=? 90))%nat then ascii_of_nat (n + 32)
  else if ((192 <=? n) && (n <=? 222) && negb (n =? 215))%nat
       then ascii_of_nat (n + 32)
  else c.

(** [s.lower()] *)
Fixpoint lower (s : string) : string :=
  match s with
  | EmptyString => ""
  | String c rest => String (lower_char c) (lower rest)
  end.

(** [d.get(key, default)] on a dict of strings. *)
Fixpoint table_get (d : list (string * string)) (key default : string) : string :=
  match d with
  | [] => default
  | (k, v) :: rest => if (k =? key)%string then v else table_get rest key default
  end.

End Builtins.

(** ** The Fax.Plus SDK and the operating system, as the handlers see them *)

Module FaxPlus.
Import Py.

Definition bytes : Type := list Byte.byte.

(** [faxplus.ApiClient(configuration)] wrapped in one of the API classes: a
    fresh object holding the API key of its configuration. *)
Record api_client : Type := ApiClient { client_oid : nat; client_api_key : string }.

Inductive FaxDirection : Type := OUTBOUND | INBOUND.
Inductive FaxCategory : Type := GENERAL.

Record PayloadOutboxFax : Type := {
  to : value;
  subject : value;
  comment : value;
  file_id : string;
  direction : FaxDirection;
  category : FaxCategory
}.

Record PayloadOutbox : Type := { fax : PayloadOutboxFax }.

(** What [upload_file] and [send_fax] return: objects with an [id]. *)
Record uploaded_file : Type := { uploaded_id : string }.
Record fax_result : Type := { fax_result_id : string }.

(** An attribute of an object of the SDK: a value that [json.dumps] can
    write, or an object of another type (a datetime, say) that it refuses. *)
Inductive attribute : Type :=
| Plain (v : value)
| Object (type_name : string).

(** What [get_outbox_fax] returns: the five attributes the handler reads. *)
Record fax_record : Type := {
  status : attribute;
  completed : attribute;
  cost : attribute;
  pagecount : attribute;
  created_at : attribute
}.

(** [json.dumps] on a dict of attributes: the first one it cannot write
    raises TypeError. *)
Fixpoint plain_items (d : list (string * attribute))
  : result (list (string * value)) :=
  match d with
  | [] => Return []
  | (k, Plain v) :: rest =>
      match plain_items rest with
      | Return l => Return ((k, v) :: l)
      | Raise e => Raise e
      end
  | (_, Object type_name) :: _ =>
      Raise (Exn TypeError
               ("Object of type " ++ type_name ++ " is not JSON serializable"))
  end.

(** What [BaseModel.__setattr__] raises for a name the class does not
    declare. *)
Definition no_field_error (cls attr : string) : exn :=
  Exn (OtherError "ValueError")
    (Builtins.DQ ++ cls ++ Builtins.DQ ++ " object has no field "
       ++ Builtins.DQ ++ attr ++ Builtins.DQ).

(** What a handler does that can be observed from outside, in order: the
    construction of its clients and its calls to the remote service. *)
Inductive event : Type :=
| InitClient
| UploadFile (c : api_client) (account_id : string) (file : bytes)
             (filename content_type : string)
| SendFax (c : api_client) (account_id : string) (payload : PayloadOutbox)
| GetOutboxFax (c : api_client) (account_id : string) (fax_id : value).

(** The collaborators outside the repository, over a state [W] of the outside
    world (file system and remote service).  Each may raise. *)
Record Env (W : Type) : Type := {
  json_loads : string -> result value;
  float_repr : spec_float -> string;
  str_repr : string -> string;
  os_path_exists : W -> value -> result bool;
  open_read : W -> value -> result bytes;
  upload_file : api_client -> string -> bytes -> string -> string -> W
                -> result uploaded_file * W;
  send_fax : api_client -> string -> PayloadOutbox -> W -> result fax_result * W;
  get_outbox_fax : api_client -> string -> value -> W -> result fax_record * W
}.

(** The interpreter state of a handler: the tool object [self], the outside
    world and the next fresh object identity. *)
Record state (T W : Type) : Type := {
  self : T;
  world : W;
  next_oid : nat
}.

Section Interp.
Context {T W : Type}.

(** [self.attr = x] and friends: an update of the tool object. *)
Definition modify_self (f : T -> T) : M (state T W) event unit :=
  fun s => (Return tt,
            {| self := f (self s); world := world s; next_oid := next_oid s |},
            []).

(** A constructor call: the new object takes the next identity. *)
Definition new_api_client (key : string) : M (state T W) event api_client :=
  fun s => (Return (ApiClient (next_oid s) key),
            {| self := self s; world := world s; next_oid := S (next_oid s) |},
            []).

(** A read of the outside world. *)
Definition observe {A} (f : W -> result A) : M (state T W) event A :=
  fun s => (f (world s), s, []).

(** A call to the remote service: the world moves on and the call is
    logged, whether it returns or raises. *)
Definition remote {A} (ev : event) (f : W -> result A * W)
  : M (state T W) event A :=
  fun s =>
    match f (world s) with
    | (r, w) =>
        (r, {| self := self s; world := w; next_oid := next_oid s |}, [ev])
    end.
End Interp.

End FaxPlus.

(** ** [class FaxPlusTool] *)

Module FaxPlusTool.
Import Py Builtins FaxPlus.
Local Open Scope py_scope.

(** The tool object: its two pydantic fields and the three attributes the
    handler looks for with [hasattr].  The class does not declare these three,
    so they are present only on an object where they were put from outside
    (through [object.__setattr__], or by a subclass that declares them). *)
Record tool : Type := {
  api_key : string;
  account_id : string;
  files_api : option api_client;
  outbox_api : option api_client;
  accounts_api : option api_client
}.

Definition name : string := "faxplus".

(** [FaxPlusTool(api_key=..., account_id=...)] *)
Definition new (key account : string) : tool :=
  {| api_key := key; account_id := account;
     files_api := None; outbox_api := None; accounts_api := None |}.

Definition set_files_api (c : api_client) (t : tool) : tool :=
  {| api_key := api_key t; account_id := account_id t;
     files_api := Some c; outbox_api := outbox_api t;
     accounts_api := accounts_api t |}.

Definition set_outbox_api (c : api_client) (t : tool) : tool :=
  {| api_key := api_key t; account_id := account_id t;
     files_api := files_api t; outbox_api := Some c;
     accounts_api := accounts_api t |}.

Definition set_accounts_api (c : api_client) (t : tool) : tool :=
  {| api_key := api_key t; account_id := account_id t;
     files_api := files_api t; outbox_api := outbox_api t;
     accounts_api := Some c |}.

(** The fields the class declares or overrides; those it inherits from
    [BaseTool] bear other names than the three clients. *)
Definition declared_fields : list string :=
  ["name"; "description"; "api_key"; "account_id"].

Definition mime_types : list (string * string) :=
  [ (".pdf", "application/pdf");
    (".tiff", "image/tiff");
    (".tif", "image/tiff");
    (".jpg", "image/jpeg");
    (".jpeg", "image/jpeg");
    (".png", "image/png");
    (".doc", "application/msword");
    (".docx",
     "application/vnd.openxmlformats-officedocument.wordprocessingml.document");
    (".txt", "text/plain") ].

Definition _get_mime_type (extension : string) : string :=
  table_get mime_types extension "application/octet-stream".

Section Handler.
Context {W : Type} (env : Env W).

Local Abbreviation Run := (M (state tool W) event).

(** [self.<attr>] for an attribute [_init_client] sets. *)
Definition getattr (attr : string) (proj : tool -> option api_client)
  : Run api_client :=
  s <- get ;;
  match proj (self s) with
  | Some c => ret c
  | None =>
      raise (Exn AttributeError
               ("'FaxPlusTool' object has no attribute '" ++ attr ++ "'"))
  end.

(** [self.<attr> = x]: the class is a [BaseTool], a pydantic model, and
    only a declared field can be assigned. *)
Definition setattr (attr : string) (update : tool -> tool) : Run unit :=
  if existsb (String.eqb attr) declared_fields
  then modify_self update
  else raise (no_field_error "FaxPlusTool" attr).

Definition _init_client : Run unit :=
  emit InitClient ;;;
  s <- get ;;
  let configuration := api_key (self s) in
  c <- new_api_client configuration ;;
  setattr "files_api" (set_files_api c) ;;;
  c <- new_api_client configuration ;;
  setattr "outbox_api" (set_outbox_api c) ;;;
  c <- new_api_client configuration ;;
  setattr "accounts_api" (set_accounts_api c).

(** The body of the [try] block of [_run]. *)
Definition _run_try (query : string) : Run string :=
  input_data <- lift (json_loads env query) ;;
  fax_number <- lift (py_get input_data "fax_number" VNone) ;;
  subject <- lift (py_get input_data "subject" VNone) ;;
  file_path <- lift (py_get input_data "file_path" VNone) ;;
  comment <- lift (py_get input_data "comment" (VStr "")) ;;
  if negb (truthy fax_number) then
    ret "Error: Recipient fax number is required"
  else if negb (truthy subject) then
    ret "Error: Subject is required"
  else if negb (truthy file_path) then
    ret "Error: File path is required"
  else
    found <- observe (fun w => os_path_exists env w file_path) ;;
    if negb found then
      ret ("Error: File not found at "
             ++ py_str (float_repr env) (str_repr env) file_path)
    else
      s <- get ;;
      (* if not hasattr(self, 'files_api'): self._init_client() *)
      (match files_api (self s) with
       | None => _init_client
       | Some _ => ret tt
       end) ;;;
      (* with open(file_path, "rb") as file: file_content = file.read() *)
      file_content <- observe (fun w => open_read env w file_path) ;;
      file_name <- lift (os_path_basename file_path) ;;
      let file_extension := lower (snd (splitext file_name)) in
      let mime_type := _get_mime_type file_extension in
      files <- getattr "files_api" files_api ;;
      s <- get ;;
      uploaded <- remote
        (UploadFile files (account_id (self s)) file_content file_name
                    mime_type)
        (upload_file env files (account_id (self s)) file_content file_name
                     mime_type) ;;
      let fax :=
        {| to := fax_number; subject := subject; comment := comment;
           file_id := uploaded_id uploaded;
           direction := OUTBOUND; category := GENERAL |} in
      let payload := {| fax := fax |} in
      outbox <- getattr "outbox_api" outbox_api ;;
      s <- get ;;
      fax_result <- remote
        (SendFax outbox (account_id (self s)) payload)
        (send_fax env outbox (account_id (self s)) payload) ;;
      ret ("Fax successfully queued. Fax ID: " ++ fax_result_id fax_result).

(** The two [except] clauses of [_run], tried in order. *)
Definition _run_except (e : exn) : Run string :=
  if is_JSONDecodeError e then
    ret "Error: Invalid JSON input. Please provide a valid JSON object."
  else
    ret ("Error sending fax: " ++ str_exn e).

Definition _run (query : string) : Run string :=
  try_except (_run_try query) _run_except.
End Handler.

End FaxPlusTool.

(** ** [class FaxPlusStatusTool] *)

Module FaxPlusStatusTool.
Import Py Builtins FaxPlus.
Local Open Scope py_scope.

(** The tool object: its two pydantic fields and the attribute the handler
    looks for with [hasattr].  The class does not declare it, so it is
    present only on an object where it was put from outside. *)
Record tool : Type := {
  api_key : string;
  account_id : string;
  outbox_api : option api_client
}.

Definition name : string := "faxplus_status".

(** [FaxPlusStatusTool(api_key=..., account_id=...)] *)
Definition new (key account : string) : tool :=
  {| api_key := key; account_id := account; outbox_api := None |}.

Definition set_outbox_api (c : api_client) (t : tool) : tool :=
  {| api_key := api_key t; account_id := account_id t; outbox_api := Some c |}.

(** The fields the class declares or overrides. *)
Definition declared_fields : list string :=
  ["name"; "description"; "api_key"; "account_id"].

Section Handler.
Context {W : Type} (env : Env W).

Local Abbreviation Run := (M (state tool W) event).

Definition getattr (attr : string) (proj : tool -> option api_client)
  : Run api_client :=
  s <- get ;;
  match proj (self s) with
  | Some c => ret c
  | None =>
      raise (Exn AttributeError
               ("'FaxPlusStatusTool' object has no attribute '" ++ attr ++ "'"))
  end.

(** [self.<attr> = x] on the pydantic model. *)
Definition setattr (attr : string) (update : tool -> tool) : Run unit :=
  if existsb (String.eqb attr) declared_fields
  then modify_self update
  else raise (no_field_error "FaxPlusStatusTool" attr).

Definition _init_client : Run unit :=
  emit InitClient ;;;
  s <- get ;;
  let configuration := api_key (self s) in
  c <- new_api_client configuration ;;
  setattr "outbox_api" (set_outbox_api c).

(** The dict [status_info] of [_run]. *)
Definition status_info (fax_id : value) (fax_status : fax_record)
  : list (string * attribute) :=
  [ ("fax_id", Plain fax_id);
    ("status", status fax_status);
    ("completed", completed fax_status);
    ("cost", cost fax_status);
    ("pagecount", pagecount fax_status);
    ("created_at", created_at fax_status) ].

(** [json.dumps(status_info, indent=2)] *)
Definition dumps_status_info (info : list (string * attribute)) : result string :=
  match plain_items info with
  | Return items => Return (json_dumps_indent2 (float_repr env) (VDict items))
  | Raise e => Raise e
  end.

(** The body of the [try] block of [_run]. *)
Definition _run_try (query : string) : Run string :=
  input_data <- lift (json_loads env query) ;;
  fax_id <- lift (py_get input_data "fax_id" VNone) ;;
  if negb (truthy fax_id) then
    ret "Error: Fax ID is required"
  else
    s <- get ;;
    (* if not hasattr(self, 'outbox_api'): self._init_client() *)
    (match outbox_api (self s) with
     | None => _init_client
     | Some _ => ret tt
     end) ;;;
    outbox <- getattr "outbox_api" outbox_api ;;
    s <- get ;;
    fax_status <- remote
      (GetOutboxFax outbox (account_id (self s)) fax_id)
      (get_outbox_fax env outbox (account_id (self s)) fax_id) ;;
    lift (dumps_status_info (status_info fax_id fax_status)).

(** The two [except] clauses of [_run], tried in order. *)
Definition _run_except (e : exn) : Run string :=
  if is_JSONDecodeError e then
    ret "Error: Invalid JSON input. Please provide a valid JSON object."
  else
    ret ("Error checking fax status: " ++ str_exn e).

Definition _run (query : string) : Run string :=
  try_except (_run_try query) _run_except.
End Handler.

End FaxPlusStatusTool.

(** ** The package initialiser [langchain_fax/__init__.py] *)

Module Package.
Import Py.

(** The names [langchain_fax/tools.py] binds at module level: its imports and
    its two classes. *)
Definition tools_namespace : list string :=
  [ "os"; "base64"; "Dict"; "List"; "Optional"; "Union"; "json";
    "BaseModel"; "Field"; "faxplus"; "files_api"; "outbox_api";
    "accounts_api"; "FaxCategory"; "FaxDirection"; "PayloadOutbox";
    "PayloadOutboxFax"; "BaseTool"; "CallbackManagerForToolRun";
    "FaxPlusTool"; "FaxPlusStatusTool" ].

Definition defines (namespace : list string) (name : string) : bool :=
  existsb (String.eqb name) namespace.

(** [from module import n1, n2, ...]: the first name the module does not
    bind raises ImportError (the message without the file location). *)
Fixpoint import_from (module : string) (namespace names : list string)
  : result unit :=
  match names with
  | [] => Return tt
  | n :: rest =>
      if defines namespace n then import_from module namespace rest
      else Raise (Exn ImportError
                    ("cannot import name '" ++ n ++ "' from '" ++ module ++ "'"))
  end.

(** Running [__init__.py]: on success the value of [__all__]. *)
Definition package_init : result (list string) :=
  match import_from "langchain_fax.tools" tools_namespace
          ["FaxPlusTool"; "FaxPlusStatusTool"] with
  | Raise e => Raise e
  | Return _ =>
      match import_from "langchain_fax.tools" tools_namespace
              ["FaxSenderTool"; "FaxStatusTool"; "FaxHistoryTool"] with
      | Raise e => Raise e
      | Return _ => Return ["FaxSenderTool"; "FaxStatusTool"; "FaxHistoryTool"]
      end
  end.

End Package.

(** ** A test double for the collaborators

    In the manner of [unittest.mock]: the parser is a table of the texts it
    accepts, the file system a table of paths, and the remote service answers
    every call with a fixed result.  No float occurs in the test data. *)

Module Mock.
Import Py Builtins FaxPlus.

(** The files on disk, by path. *)
Definition disk : Type := list (string * bytes).

Fixpoint lookup {A} (tbl : list (string * A)) (k : string) : option A :=
  match tbl with
  | [] => None
  | (k', a) :: rest => if (k' =? k)%string then Some a else lookup rest k
  end.

Definition loads (texts : list (string * value)) (query : string) : result value :=
  match lookup texts query with
  | Some v => Return v
  | None => Raise (Exn JSONDecodeError "Expecting value: line 1 column 1 (char 0)")
  end.

Definition path_type_error (v : value) : exn :=
  Exn TypeError
    ("stat: path should be string, bytes, os.PathLike or integer, not "
       ++ type_name v).

Definition exists_ (w : disk) (p : value) : result bool :=
  match p with
  | VStr s => Return (match lookup w s with Some _ => true | None => false end)
  | VInt _ | VBool _ => Return false
  | _ => Raise (path_type_error p)
  end.

Definition read (w : disk) (p : value) : result bytes :=
  match p with
  | VStr s =>
      match lookup w s with
      | Some b => Return b
      | None =>
          Raise (Exn (OtherError "FileNotFoundError")
                   ("[Errno 2] No such file or directory: '" ++ s ++ "'"))
      end
  | _ => Raise (Exn (OtherError "OSError") "[Errno 9] Bad file descriptor")
  end.

Definition env (texts : list (string * value))
  (upload : result uploaded_file) (send : result fax_result)
  (lookup_fax : result fax_record) : Env disk :=
  {| json_loads := loads texts;
     float_repr := fun _ => "0.0";
     str_repr := fun s => "'" ++ s ++ "'";
     os_path_exists := exists_;
     open_read := read;
     upload_file := fun _ _ _ _ _ w => (upload, w);
     send_fax := fun _ _ _ w => (send, w);
     get_outbox_fax := fun _ _ _ w => (lookup_fax, w) |}.

Definition start {T} (t : T) (w : disk) : state T disk :=
  {| self := t; world := w; next_oid := 0 |}.

End Mock.

(** * Vocabulary of the properties *)

(** ** Requests as the handlers read them *)

Module Request.
Import Py Builtins.

(** [d.get(key)]: the value bound to [key], None when the key is absent. *)
Definition field (d : list (string * value)) (key : string) : value :=
  match dict_lookup d key with Some v => v | None => VNone end.

(** A field is missing when the handler's test [not d.get(key)] succeeds:
    the key is absent or bound to a falsy value. *)
Definition missing (d : list (string * value)) (key : string) : bool :=
  negb (truthy (field d key)).

(** [d.get("comment", "")] *)
Definition comment_of (d : list (string * value)) : value :=
  match dict_lookup d "comment" with Some v => v | None => VStr "" end.

End Request.

(** ** Invocations of one tool object *)

Module SendLife.
Import Py Builtins FaxPlus FaxPlusTool Request.

Section Life.
Context {W : Type} (env : Env W).

(** The state [_init_client] leaves when its first assignment is refused: the
    first client was constructed and nothing was stored. *)
Definition after_init (st : state tool W) : state tool W :=
  {| self := self st; world := world st; next_oid := S (next_oid st) |}.

(** The failure of [self.files_api = ...]. *)
Definition init_error : exn := no_field_error "FaxPlusTool" "files_api".

(** Whether a request passes every check of the handler in the world [w], and
    so comes to the line [if not hasattr(self, 'files_api')]: it parses as
    an object, its three required fields pass the truth test and
    [os.path.exists] answers True. *)
Definition reaches_client_step (w : W) (q : string) : bool :=
  match json_loads env q with
  | Return (VDict d) =>
      negb (missing d "fax_number") && negb (missing d "subject")
      && negb (missing d "file_path")
      && match os_path_exists env w (field d "file_path") with
         | Return found => found
         | Raise _ => false
         end
  | _ => false
  end.

(** A sequence of invocations of [_run] on the same tool object: the
    results, the final state and the whole log. *)
Fixpoint invoke_all (queries : list string) (st : state tool W)
  : list (result string) * state tool W * list event :=
  match queries with
  | [] => ([], st, [])
  | q :: rest =>
      match _run env q st with
      | (r, st1, l1) =>
          match invoke_all rest st1 with
          | (rs, st2, l2) => (r :: rs, st2, (l1 ++ l2)%list)
          end
      end
  end.

(** The upload a run makes for the file name [fname]: the MIME type is the
    table's entry for the lowered extension. *)
Definition upload_of (c : api_client) (st : state tool W) (content : bytes)
  (fname : string) : event :=
  UploadFile c (account_id (self st)) content fname
    (_get_mime_type (lower (snd (splitext fname)))).

(** The handler's ways through.  It returns before any call, having touched
    nothing; or, on an object without clients, it enters [_init_client],
    which fails; or, on an object that holds its clients, it stops at the
    upload or at the submission. *)
Inductive run_shape (q : string) (st : state tool W)
  : state tool W -> list event -> Prop :=
| shape_checks :
    run_shape q st st []
| shape_init :
    files_api (self st) = None ->
    run_shape q st (after_init st) [InitClient]
| shape_upload files d p content w :
    files_api (self st) = Some files ->
    json_loads env q = Return (VDict d) ->
    field d "file_path" = VStr p ->
    run_shape q st
      {| self := self st; world := w; next_oid := next_oid st |}
      [upload_of files st content (basename_str p)]
| shape_send files outbox d p content payload w :
    files_api (self st) = Some files ->
    outbox_api (self st) = Some outbox ->
    json_loads env q = Return (VDict d) ->
    field d "file_path" = VStr p ->
    run_shape q st
      {| self := self st; world := w; next_oid := next_oid st |}
      [upload_of files st content (basename_str p);
       SendFax outbox (account_id (self st)) payload].

End Life.
End SendLife.

Module StatusLife.
Import Py Builtins FaxPlus FaxPlusStatusTool Request.

Section Life.
Context {W : Type} (env : Env W).

Definition after_init (st : state tool W) : state tool W :=
  {| self := self st; world := world st; next_oid := S (next_oid st) |}.

(** The failure of [self.outbox_api = ...]. *)
Definition init_error : exn := no_field_error "FaxPlusStatusTool" "outbox_api".

(** Whether a request passes the check of the handler and so comes to the
    line [if not hasattr(self, 'outbox_api')]. *)
Definition reaches_client_step (q : string) : bool :=
  match json_loads env q with
  | Return (VDict d) => negb (missing d "fax_id")
  | _ => false
  end.

Fixpoint invoke_all (queries : list string) (st : state tool W)
  : list (result string) * state tool W * list event :=
  match queries with
  | [] => ([], st, [])
  | q :: rest =>
      match _run env q st with
      | (r, st1, l1) =>
          match invoke_all rest st1 with
          | (rs, st2, l2) => (r :: rs, st2, (l1 ++ l2)%list)
          end
      end
  end.

(** The handler's ways through: it returns at a check, having touched
    nothing; or, on an object without a client, it enters [_init_client],
    which fails; or, on an object that holds its client, it asks the
    service. *)
Inductive run_shape (q : string) (st : state tool W)
  : state tool W -> list event -> Prop :=
| shape_checks :
    run_shape q st st []
| shape_init :
    outbox_api (self st) = None ->
    run_shape q st (after_init st) [InitClient]
| shape_lookup outbox d w :
    outbox_api (self st) = Some outbox ->
    json_loads env q = Return (VDict d) ->
    run_shape q st
      {| self := self st; world := w; next_oid := next_oid st |}
      [GetOutboxFax outbox (account_id (self st)) (field d "fax_id")].

(** A pretty-printed key/value block: one indented [key: text] line per
    field, separated by commas, between braces on lines of their own. *)
Definition entry (key text : string) : string :=
  DQ ++ key ++ DQ ++ ": " ++ text.

Definition text_block (entries : list string) : string :=
  "{" ++ LF ++ "  " ++ join ("," ++ LF ++ "  ") entries ++ LF ++ "}".

End Life.
End StatusLife.

(** ** Counting on logs *)

Module Log.
Import FaxPlus.

Definition is_init (ev : event) : bool :=
  match ev with InitClient => true | _ => false end.

(** How many times [_init_client] ran. *)
Definition init_count (log : list event) : nat :=
  List.length (filter is_init log).

(** The clients the calls of a log went through. *)
Definition upload_clients (log : list event) : list api_client :=
  flat_map (fun ev => match ev with UploadFile c _ _ _ _ => [c] | _ => [] end) log.

Definition outbox_clients (log : list event) : list api_client :=
  flat_map (fun ev => match ev with
                      | SendFax c _ _ | GetOutboxFax c _ _ => [c]
                      | _ => []
                      end) log.

End Log.

(** ** Test data *)

Module Tests.
Import Py Builtins FaxPlus.

(** A JSON string literal: the text between double quotes. *)
Definition qt (s : string) : string := DQ ++ s ++ DQ.

(** The text of a one-level JSON object with string members. *)
Definition member (kv : string * string) : string :=
  qt (fst kv) ++ ": " ++ qt (snd kv).

Definition object_text (members : list (string * string)) : string :=
  "{" ++ join ", " (map member members) ++ "}".

Definition q_send : string :=
  object_text [ ("fax_number", "+14155552671"); ("subject", "Hello");
                ("file_path", "/tmp/Report.PDF") ].

Definition d_send : list (string * value) :=
  [ ("fax_number", VStr "+14155552671");
    ("subject", VStr "Hello");
    ("file_path", VStr "/tmp/Report.PDF") ].

Definition q_no_subject : string :=
  object_text [ ("fax_number", "+14155552671");
                ("file_path", "/tmp/Report.PDF") ].

Definition d_no_subject : list (string * value) :=
  [ ("fax_number", VStr "+14155552671");
    ("file_path", VStr "/tmp/Report.PDF") ].

Definition q_empty_subject : string :=
  object_text [ ("fax_number", "+14155552671"); ("subject", "");
                ("file_path", "/tmp/Report.PDF") ].

Definition d_empty_subject : list (string * value) :=
  [ ("fax_number", VStr "+14155552671");
    ("subject", VStr "");
    ("file_path", VStr "/tmp/Report.PDF") ].

Definition q_status : string := object_text [ ("fax_id", "fax-A") ].
Definition d_status : list (string * value) := [ ("fax_id", VStr "fax-A") ].

Definition q_null_id : string := "{" ++ qt "fax_id" ++ ": null}".
Definition d_null_id : list (string * value) := [ ("fax_id", VNone) ].

Definition q_garbage : string := "send a fax please".

Definition texts : list (string * value) :=
  [ (q_send, VDict d_send);
    (q_no_subject, VDict d_no_subject);
    (q_empty_subject, VDict d_empty_subject);
    (q_status, VDict d_status);
    (q_null_id, VDict d_null_id);
    ("{}", VDict []);
    ("[]", VList []) ].

Definition disk_with_report : Mock.disk :=
  [ ("/tmp/Report.PDF", [Byte.x25; Byte.x50; Byte.x44; Byte.x46]) ].

(** The record the mock service holds for every id. *)
Definition a_record : fax_record :=
  {| status := Plain (VStr "success");
     completed := Plain (VBool true);
     cost := Plain (VInt 1);
     pagecount := Plain (VInt 2);
     created_at := Plain (VStr "2023-01-01T12:00:00Z") |}.

(** The same record with its creation time as a datetime object. *)
Definition a_dated_record : fax_record :=
  {| status := Plain (VStr "success");
     completed := Plain (VBool true);
     cost := Plain (VInt 1);
     pagecount := Plain (VInt 2);
     created_at := Object "datetime" |}.

(** A service that accepts every call. *)
Definition accepting : Env Mock.disk :=
  Mock.env texts (Return {| uploaded_id := "file-1" |})
    (Return {| fax_result_id := "fax-9" |}) (Return a_record).

(** A service that fails every call. *)
Definition service_down : exn :=
  Exn (OtherError "ApiException") "(503) Service Unavailable".

Definition failing : Env Mock.disk :=
  Mock.env texts (Raise service_down) (Raise service_down) (Raise service_down).

Definition send_tool : FaxPlusTool.tool := FaxPlusTool.new "key" "acct".
Definition status_tool : FaxPlusStatusTool.tool := FaxPlusStatusTool.new "key" "acct".

(** Tool objects on which the client attributes were put in place from
    outside, as the classes do not let [_init_client] store them. *)
Definition send_tool_with_clients : FaxPlusTool.tool :=
  {| FaxPlusTool.api_key := "key"; FaxPlusTool.account_id := "acct";
     FaxPlusTool.files_api := Some (ApiClient 0 "key");
     FaxPlusTool.outbox_api := Some (ApiClient 1 "key");
     FaxPlusTool.accounts_api := Some (ApiClient 2 "key") |}.

Definition status_tool_with_client : FaxPlusStatusTool.tool :=
  {| FaxPlusStatusTool.api_key := "key"; FaxPlusStatusTool.account_id := "acct";
     FaxPlusStatusTool.outbox_api := Some (ApiClient 0 "key") |}.

(** Their states: the three identities are taken. *)
Definition send_ready : state FaxPlusTool.tool Mock.disk :=
  {| self := send_tool_with_clients; world := disk_with_report;
     next_oid := 3 |}.

Definition status_ready : state FaxPlusStatusTool.tool Mock.disk :=
  {| self := status_tool_with_client; world := disk_with_report;
     next_oid := 1 |}.

End Tests.

(** ** The [str] methods and [json.dumps] of the workflow example *)

Module StrMethods.
Import Py Builtins.

(** [sub in s] *)
Fixpoint contains (sub s : string) : bool :=
  match s with
  | EmptyString => prefix sub s
  | String _ rest => prefix sub s || contains sub rest
  end.

(** [s.split(sep)] for a separator that is not empty, in one pass from the
    left: [skip] counts the characters of a separator still to pass over and
    [cur] is the piece read so far. *)
Fixpoint split_go (sep : string) (skip : nat) (s cur : string) : list string :=
  match s with
  | EmptyString => [cur]
  | String c rest =>
      match skip with
      | S k => split_go sep k rest cur
      | O =>
          if prefix sep s
          then cur :: split_go sep (String.length sep - 1) rest ""
          else split_go sep 0 rest (cur ++ String c "")
      end
  end.

Definition split (s sep : string) : list string := split_go sep 0 s "".

(** [s.split(sep, 1)]: at most one cut, at the first separator. *)
Fixpoint split_once_go (sep s cur : string) : list string :=
  match s with
  | EmptyString => [cur]
  | String c rest =>
      if prefix sep s
      then [cur; substring (String.length sep) (String.length s) s]
      else split_once_go sep rest (cur ++ String c "")
  end.

Definition split_once (s sep : string) : list string := split_once_go sep s "".

(** [l[i]] *)
Definition item (l : list string) (i : nat) : result string :=
  match nth_error l i with
  | Some x => Return x
  | None => Raise (Exn (OtherError "IndexError") "list index out of range")
  end.

(** [c.isspace()] for a code point below 256 *)
Definition is_space (c : ascii) : bool :=
  let n := nat_of_ascii c in
  (((9 <=? n) && (n <=? 13)) || ((28 <=? n) && (n <=? 32))
   || (n =? 133) || (n =? 160))%nat.

Fixpoint lstrip (s : string) : string :=
  match s with
  | EmptyString => ""
  | String c rest => if is_space c then lstrip rest else s
  end.

Fixpoint rstrip (s : string) : string :=
  match s with
  | EmptyString => ""
  | String c rest =>
      match rstrip rest with
      | EmptyString => if is_space c then "" else String c ""
      | r => String c r
      end
  end.

(** [s.strip()] *)
Definition strip (s : string) : string := rstrip (lstrip s).

(** A string that does not begin with white space. *)
Definition starts_clean (s : string) : Prop :=
  match s with
  | EmptyString => True
  | String c _ => is_space c = false
  end.

(** [json.dumps(obj)] with the default separators [', '] and [': ']. *)
Section Dumps.
Variable float_repr : spec_float -> string.

Fixpoint json_dumps (o : value) : string :=
  match o with
  | VNone => "null"
  | VBool true => "true"
  | VBool false => "false"
  | VInt n => int_repr n
  | VFloat f => floatstr float_repr f
  | VStr s => encode_basestring_ascii s
  | VList [] => "[]"
  | VList l => "[" ++ join ", " (map json_dumps l) ++ "]"
  | VDict [] => "{}"
  | VDict d =>
      "{" ++ join ", "
               (map (fun kv => match kv with
                               | (k, x) =>
                                   encode_basestring_ascii k ++ ": "
                                     ++ json_dumps x
                               end) d) ++ "}"
  end.
End Dumps.

End StrMethods.

(** ** [examples/langgraph_workflow_example.py]: the node and edge functions *)

Module Workflow.
Import Py Builtins StrMethods.

Inductive message : Type :=
| AIMessage (content : string)
| HumanMessage (content : string)
| SystemMessage (content : string).

(** [class State(TypedDict)] *)
Record State : Type := {
  messages : list message;
  document_path : string;
  document_type : string;
  recipient_fax : string;
  should_fax : bool;
  fax_id : string;
  subject : string
}.

Record ToolInvocation : Type := { tool : string; tool_input : string }.

(** [{**state, "messages": m, "subject": s}] *)
Definition with_subject (state : State) (m : list message) (s : string) : State :=
  {| messages := m; document_path := document_path state;
     document_type := document_type state;
     recipient_fax := recipient_fax state; should_fax := should_fax state;
     fax_id := fax_id state; subject := s |}.

(** [{**state, "messages": m, "fax_id": i}] *)
Definition with_fax_id (state : State) (m : list message) (i : string) : State :=
  {| messages := m; document_path := document_path state;
     document_type := document_type state;
     recipient_fax := recipient_fax state; should_fax := should_fax state;
     fax_id := i; subject := subject state |}.

(** [{**state, "messages": m}] *)
Definition with_messages (state : State) (m : list message) : State :=
  {| messages := m; document_path := document_path state;
     document_type := document_type state;
     recipient_fax := recipient_fax state; should_fax := should_fax state;
     fax_id := fax_id state; subject := subject state |}.

(** [generate_subject]; [content] is [response.content], the answer of the
    language model to the subject prompt. *)
Definition generate_subject (content : string) (state : State) : result State :=
  let subject := strip content in
  match
    (if contains ":" subject
     then match item (split_once subject ":") 1 with
          | Return x => Return (strip x)
          | Raise e => Raise e
          end
     else Return subject)
  with
  | Raise e => Raise e
  | Return subject =>
      let messages :=
        (messages state ++ [AIMessage ("Generated subject: " ++ subject)])%list in
      Return (with_subject state messages subject)
  end.

Definition fax_data (state : State) : value :=
  VDict [ ("fax_number", VStr (recipient_fax state));
          ("subject", VStr (subject state));
          ("file_path", VStr (document_path state));
          ("comment",
           VStr ("Automated fax of " ++ document_type state ++ " document")) ].

Definition prepare_fax_data (float_repr : spec_float -> string) (state : State)
  : ToolInvocation :=
  {| tool := "faxplus"; tool_input := json_dumps float_repr (fax_data state) |}.

Definition process_fax_result (state : State) (result : string) : Py.result State :=
  match
    (if contains "Fax ID:" result
     then match item (split result "Fax ID:") 1 with
          | Return x => Return (strip x)
          | Raise e => Raise e
          end
     else Return "")
  with
  | Raise e => Raise e
  | Return fax_id =>
      let messages := (messages state ++ [AIMessage result])%list in
      Return (with_fax_id state messages fax_id)
  end.

Definition status_data (state : State) : value :=
  VDict [ ("fax_id", VStr (fax_id state)) ].

Definition prepare_status_check (float_repr : spec_float -> string)
  (state : State) : ToolInvocation :=
  {| tool := "faxplus_status";
     tool_input := json_dumps float_repr (status_data state) |}.

Definition process_status_result (state : State) (result : string) : State :=
  with_messages state
    (messages state ++ [AIMessage ("Current fax status: " ++ result)])%list.

Definition should_send_fax (state : State) : string :=
  if should_fax state then "send_fax" else "end".

(** [state.get("fax_id", "")] is the field itself: every key of the TypedDict
    is present. *)
Definition has_fax_id (state : State) : string :=
  if negb (fax_id state =? "")%string then "check_status" else "end".

End Workflow.

(** ** Positions in a path *)

Module Paths.

(** The highest position of [c] in [s], if it has one. *)
Fixpoint last_index (c : ascii) (s : string) : option nat :=
  match s with
  | EmptyString => None
  | String a rest =>
      match last_index c rest with
      | Some k => Some (S k)
      | None => if Ascii.eqb a c then Some 0%nat else None
      end
  end.

(** The content types the MIME table can give. *)
Definition content_types : list string :=
  [ "application/pdf"; "image/tiff"; "image/jpeg"; "image/png";
    "application/msword";
    "application/vnd.openxmlformats-officedocument.wordprocessingml.document";
    "text/plain"; "application/octet-stream" ].

End Paths.

(** ** The credentials a call carries *)

Module Credentials.
Import FaxPlus.




End Credentials.

(** ** More test data *)

Module MoreTests.
Import Py Builtins FaxPlus.

Definition q_fd_path : string :=
  "{" ++ Tests.qt "fax_number" ++ ": " ++ Tests.qt "+14155552671" ++ ", "
      ++ Tests.qt "subject" ++ ": " ++ Tests.qt "Hello" ++ ", "
      ++ Tests.qt "file_path" ++ ": 7}".

Definition d_fd_path : list (string * value) :=
  [ ("fax_number", VStr "+14155552671");
    ("subject", VStr "Hello");
    ("file_path", VInt 7) ].

Definition a_state : Workflow.State :=
  {| Workflow.messages := [];
     Workflow.document_path := "/tmp/Report.PDF";
     Workflow.document_type := "invoice";
     Workflow.recipient_fax := "+14155552671";
     Workflow.should_fax := true;
     Workflow.fax_id := "fax-9";
     Workflow.subject := "Invoice" |}.

Definition no_float : spec_float -> string := fun _ => "0.0".

(** The parser of the test double, taught the texts above and the two
    requests the workflow writes for [a_state]. *)
Definition texts : list (string * value) :=
  ((q_fd_path, VDict d_fd_path)
   :: (Workflow.tool_input (Workflow.prepare_fax_data no_float a_state),
       Workflow.fax_data a_state)
   :: (Workflow.tool_input (Workflow.prepare_status_check no_float a_state),
       Workflow.status_data a_state)
   :: Tests.texts)%list.

Definition decode_error : exn :=
  Exn JSONDecodeError "Expecting value: line 1 column 1 (char 0)".

Definition accepting : Env Mock.disk :=
  Mock.env texts (Return {| uploaded_id := "file-1" |})
    (Return {| fax_result_id := "fax-9" |}) (Return Tests.a_record).

Definition failing : Env Mock.disk :=
  Mock.env texts (Raise Tests.service_down) (Raise Tests.service_down)
    (Raise Tests.service_down).

(** A service whose records carry their creation time as a datetime
    object. *)
Definition dated : Env Mock.disk :=
  Mock.env texts (Return {| uploaded_id := "file-1" |})
    (Return {| fax_result_id := "fax-9" |}) (Return Tests.a_dated_record).

(** A service whose answers the SDK cannot decode. *)
Definition garbled : Env Mock.disk :=
  Mock.env texts (Raise decode_error) (Raise decode_error) (Raise decode_error).

(** A disk where the path of the report is a directory: it exists and cannot
    be read. *)
Definition unreadable : Env Mock.disk :=
  {| json_loads := Mock.loads texts;
     float_repr := no_float;
     str_repr := fun s => "'" ++ s ++ "'";
     os_path_exists := fun _ _ => Return true;
     open_read := fun _ _ =>
       Raise (Exn (OtherError "IsADirectoryError")
                "[Errno 21] Is a directory: '/tmp/Report.PDF'");
     upload_file := fun _ _ _ _ _ w => (Return {| uploaded_id := "file-1" |}, w);
     send_fax := fun _ _ _ w => (Return {| fax_result_id := "fax-9" |}, w);
     get_outbox_fax := fun _ _ _ w => (Return Tests.a_record, w) |}.

(** A process in which every descriptor and path is open for reading. *)
Definition descriptor_open : Env Mock.disk :=
  {| json_loads := Mock.loads texts;
     float_repr := no_float;
     str_repr := fun s => "'" ++ s ++ "'";
     os_path_exists := fun _ _ => Return true;
     open_read := fun _ _ => Return [];
     upload_file := fun _ _ _ _ _ w => (Return {| uploaded_id := "file-1" |}, w);
     send_fax := fun _ _ _ w => (Return {| fax_result_id := "fax-9" |}, w);
     get_outbox_fax := fun _ _ _ w => (Return Tests.a_record, w) |}.

End MoreTests.

(** * Properties *)

(** ** Requests *)

Module RequestFacts.
Import Py Builtins Request.

Lemma py_get_field d key :
  py_get (VDict d) key VNone = Return (field d key).
Proof. reflexivity. Qed.

Lemma py_get_comment d :
  py_get (VDict d) "comment" (VStr "") = Return (comment_of d).
Proof. reflexivity. Qed.

Lemma absent_missing d key :
  dict_lookup d key = None -> missing d key = true.
Proof. unfold missing, field. intros ->. reflexivity. Qed.

Lemma falsy_missing d key v :
  dict_lookup d key = Some v -> truthy v = false -> missing d key = true.
Proof. unfold missing, field. intros -> ->. reflexivity. Qed.

Lemma lookup_remove_same d key :
  dict_lookup (dict_remove d key) key = None.
Proof.
  induction d as [|[k v] d IH]; simpl; [reflexivity|].
  destruct (k =? key)%string eqn:E; simpl; [exact IH|].
  rewrite E. exact IH.
Qed.

Lemma lookup_remove_other d key key' :
  key <> key' ->
  dict_lookup (dict_remove d key) key' = dict_lookup d key'.
Proof.
  intros Hne. induction d as [|[k v] d IH]; simpl; [reflexivity|].
  destruct (k =? key)%string eqn:E; simpl.
  - apply String.eqb_eq in E. subst k.
    destruct (key =? key')%string eqn:E'; [|exact IH].
    apply String.eqb_eq in E'. contradiction.
  - destruct (k =? key')%string; [reflexivity|exact IH].
Qed.

(** Removing a field bound to a falsy value changes no truth test. *)
Lemma missing_remove_falsy d key v key' :
  dict_lookup d key = Some v -> truthy v = false ->
  missing (dict_remove d key) key' = missing d key'.
Proof.
  intros Hl Hv. unfold missing, field.
  destruct (String.eqb_spec key key') as [<-|Hne].
  - rewrite lookup_remove_same, Hl, Hv. reflexivity.
  - rewrite (lookup_remove_other d Hne). reflexivity.
Qed.

Lemma py_get_inv obj key v :
  py_get obj key VNone = Return v ->
  exists d, obj = VDict d /\ v = field d key.
Proof.
  destruct obj; try discriminate. intros [= <-]. eauto.
Qed.

Lemma py_get_comment_inv obj v :
  py_get obj "comment" (VStr "") = Return v ->
  exists d, obj = VDict d /\ v = comment_of d.
Proof.
  destruct obj; try discriminate. intros [= <-]. eauto.
Qed.

Lemma basename_inv v name :
  os_path_basename v = Return name ->
  exists p, v = VStr p /\ name = basename_str p.
Proof.
  destruct v; try discriminate. intros [= <-]. eauto.
Qed.

(** Only a dict answers [get]. *)
Lemma py_get_not_dict obj key default :
  (forall d, obj <> VDict d) ->
  py_get obj key default =
    Raise (Exn AttributeError
             ("'" ++ type_name obj ++ "' object has no attribute 'get'")).
Proof.
  intros Hnot. destruct obj; try reflexivity. exfalso. exact (Hnot d eq_refl).
Qed.

End RequestFacts.

(** ** The built-ins on small inputs *)

Module BuiltinsExamples.
Import Py Builtins.

Example basename_of_path : basename_str "/tmp/a/Report.PDF" = "Report.PDF".
Proof. reflexivity. Qed.

Example basename_of_name : basename_str "report.pdf" = "report.pdf".
Proof. reflexivity. Qed.

Example basename_of_directory : basename_str "/tmp/" = "".
Proof. reflexivity. Qed.

Example splitext_last_dot : splitext "x.tar.GZ" = ("x.tar", ".GZ").
Proof. reflexivity. Qed.

Example splitext_leading_dots : splitext "..x" = ("..x", "").
Proof. reflexivity. Qed.

Example splitext_hidden : splitext ".bashrc" = (".bashrc", "").
Proof. reflexivity. Qed.

Example splitext_trailing_dot : splitext "a." = ("a", ".").
Proof. reflexivity. Qed.

Example splitext_dot_in_directory : splitext "/a.b/c" = ("/a.b/c", "").
Proof. reflexivity. Qed.

Example lower_extension : lower ".PdF" = ".pdf".
Proof. reflexivity. Qed.

Example int_repr_negative : int_repr (-15) = "-15".
Proof. reflexivity. Qed.

Example int_repr_zero : int_repr 0 = "0".
Proof. reflexivity. Qed.

Example truthy_values :
  map truthy [VNone; VBool false; VInt 0; VFloat (S754_zero true); VStr "";
              VList []; VDict []; VStr "0"; VInt (-1); VFloat S754_nan;
              VList [VNone]]
  = [false; false; false; false; false; false; false; true; true; true; true].
Proof. reflexivity. Qed.

Example dumps_nested :
  json_dumps_indent2 (fun _ => "1.5")
    (VDict [("a", VList [VInt 1; VNone; VList []]); ("b", VFloat S754_nan)])
  = "{" ++ LF ++ "  " ++ DQ ++ "a" ++ DQ ++ ": [" ++ LF
        ++ "    1," ++ LF ++ "    null," ++ LF ++ "    []" ++ LF
        ++ "  ]," ++ LF ++ "  " ++ DQ ++ "b" ++ DQ ++ ": NaN" ++ LF ++ "}".
Proof. reflexivity. Qed.

Example escape_control_and_latin1 :
  escape_ascii (String (ascii_of_nat 10) (String (ascii_of_nat 200) "x"))
  = "\n\u00c8x".
Proof. reflexivity. Qed.

End BuiltinsExamples.

(** ** Runs of the interpreter *)

Module RunFacts.
Import Py FaxPlus.

(** Inversion of a run of [bind]: the first computation returned and the
    second ran, or the first raised. *)
Lemma bind_inv {S E A B} (m : M S E A) (k : A -> M S E B) s r s' l :
  bind m k s = (r, s', l) ->
  (exists a s1 l1 l2,
      m s = (Return a, s1, l1) /\ k a s1 = (r, s', l2) /\ l = (l1 ++ l2)%list)
  \/ (exists e, m s = (Raise e, s', l) /\ r = Raise e).
Proof.
  unfold bind. destruct (m s) as [[[a|e] s1] l1].
  - destruct (k a s1) as [[r2 s2] l2] eqn:Hk. intros [= <- <- <-].
    left. exists a, s1, l1, l2. auto.
  - intros [= <- <- <-]. right. exists e. auto.
Qed.

Lemma remote_inv {T W A} (ev : event) (f : W -> result A * W)
  (s : state T W) r s' l :
  remote ev f s = (r, s', l) ->
  exists w, f (world s) = (r, w) /\ l = [ev]
            /\ s' = {| self := self s; world := w; next_oid := next_oid s |}.
Proof.
  unfold remote. destruct (f (world s)) as [r0 w]. intros [= <- <- <-].
  exists w. auto.
Qed.

(** Takes a run apart, one [bind] after the other.  [special] handles the
    steps of a particular handler. *)
Ltac inv_atom H :=
  first
    [ apply remote_inv in H; destruct H as (? & ? & ? & ?); subst
    | cbv [lift observe get ret raise] in H;
      injection H as ? ? ?; subst ].

Ltac inv_run special H :=
  first
    [ special H
    | lazymatch type of H with
      | bind _ _ _ = _ =>
          let Hm := fresh "Hm" in
          apply bind_inv in H;
          destruct H as [(? & ? & ? & ? & Hm & H & ?) | (? & Hm & ?)];
          [ inv_run special Hm; inv_run special H | inv_run special Hm ]
      | (if ?b then _ else _) _ = _ =>
          let E := fresh "E" in destruct b eqn:E; inv_run special H
      | _ => try inv_atom H
      end ].

End RunFacts.

(** ** The Send handler, step by step *)

Module SendFacts.
Import Py Builtins FaxPlus FaxPlusTool Request RequestFacts RunFacts SendLife.

(** Unfolds the interpreter under a run. *)
Ltac step_run :=
  cbv [_run try_except _run_try _run_except bind lift observe remote get ret
       raise emit].

Section Send.
Context {W : Type} (env : Env W).
Implicit Types (st : state tool W) (q : string) (d : list (string * value)).

Lemma send_run_invalid_json q e st :
  json_loads env q = Raise e -> is_JSONDecodeError e = true ->
  _run env q st =
    (Return "Error: Invalid JSON input. Please provide a valid JSON object.",
     st, []).
Proof. intros Hq He. step_run. rewrite Hq, He. reflexivity. Qed.

(** A JSON text that is no object - an array, a string, a number, true,
    false or null - fails at the first [get] and is answered through the
    general clause. *)
Lemma send_run_not_an_object q v st :
  json_loads env q = Return v ->
  (forall d, v <> VDict d) ->
  _run env q st =
    (Return ("Error sending fax: '" ++ type_name v
               ++ "' object has no attribute 'get'"),
     st, []).
Proof.
  intros Hq Hv. step_run. rewrite Hq, (py_get_not_dict _ _ Hv). reflexivity.
Qed.

Lemma run_fax_number_missing q d st :
  json_loads env q = Return (VDict d) ->
  missing d "fax_number" = true ->
  _run env q st = (Return "Error: Recipient fax number is required", st, []).
Proof.
  unfold missing. intros Hq Hm.
  step_run. rewrite Hq, !py_get_field, py_get_comment.
  cbv beta iota. rewrite Hm. reflexivity.
Qed.

Lemma run_subject_missing q d st :
  json_loads env q = Return (VDict d) ->
  missing d "fax_number" = false ->
  missing d "subject" = true ->
  _run env q st = (Return "Error: Subject is required", st, []).
Proof.
  unfold missing. intros Hq Hn Hm.
  step_run. rewrite Hq, !py_get_field, py_get_comment.
  cbv beta iota. rewrite Hn, Hm. reflexivity.
Qed.

Lemma run_file_path_missing q d st :
  json_loads env q = Return (VDict d) ->
  missing d "fax_number" = false ->
  missing d "subject" = false ->
  missing d "file_path" = true ->
  _run env q st = (Return "Error: File path is required", st, []).
Proof.
  unfold missing. intros Hq Hn Hs Hm.
  step_run. rewrite Hq, !py_get_field, py_get_comment.
  cbv beta iota. rewrite Hn, Hs, Hm. reflexivity.
Qed.

Lemma run_file_not_found q d st :
  json_loads env q = Return (VDict d) ->
  missing d "fax_number" = false ->
  missing d "subject" = false ->
  missing d "file_path" = false ->
  os_path_exists env (world st) (field d "file_path") = Return false ->
  _run env q st =
    (Return ("Error: File not found at "
               ++ py_str (float_repr env) (str_repr env) (field d "file_path")),
     st, []).
Proof.
  unfold missing. intros Hq Hn Hs Hf Hx.
  step_run. rewrite Hq, !py_get_field, py_get_comment.
  cbv beta iota. rewrite Hn, Hs, Hf. cbv beta iota. rewrite Hx. reflexivity.
Qed.

(** The message of the first missing field, in the order of the checks. *)
Lemma run_required_error q d st :
  json_loads env q = Return (VDict d) ->
  missing d "fax_number" || missing d "subject" || missing d "file_path" = true ->
  _run env q st =
    (Return (if missing d "fax_number"
             then "Error: Recipient fax number is required"
             else if missing d "subject" then "Error: Subject is required"
             else "Error: File path is required"),
     st, []).
Proof.
  intros Hq Hm.
  destruct (missing d "fax_number") eqn:Hn.
  - now apply run_fax_number_missing with d.
  - destruct (missing d "subject") eqn:Hs.
    + now apply run_subject_missing with d.
    + cbn in Hm. now apply run_file_path_missing with d.
Qed.

(** *** The client step *)

(** [_init_client] constructs its first client and fails at the assignment
    that would store it: nothing is stored. *)
Lemma send_init_client_fails st :
  _init_client st = (Raise init_error, after_init st, [InitClient]).
Proof. reflexivity. Qed.

(** The step as the handler runs it, on an object without clients. *)
Lemma send_client_step_none st :
  files_api (self st) = None ->
  (match files_api (self st) with
   | None => _init_client
   | Some _ => Py.ret tt
   end) st = (Raise init_error, after_init st, [InitClient]).
Proof. intros ->. reflexivity. Qed.

(** The step on an object that holds its clients. *)
Lemma send_client_step_some st c :
  files_api (self st) = Some c ->
  (match files_api (self st) with
   | None => _init_client
   | Some _ => Py.ret tt
   end) st = (Return tt, st, []).
Proof. intros ->. reflexivity. Qed.

(** *** The shape of every run *)

Lemma send_run_returns q st :
  exists s st' log, _run env q st = (Return s, st', log).
Proof.
  unfold _run, try_except.
  destruct (_run_try env q st) as [[[s|e] st1] l1].
  - eauto.
  - unfold _run_except. destruct (is_JSONDecodeError e); cbv [ret]; eauto.
Qed.

Lemma send_run_inv q st r st' log :
  _run env q st = (r, st', log) ->
  exists r0, _run_try env q st = (r0, st', log).
Proof.
  unfold _run, try_except.
  destruct (_run_try env q st) as [[[s|e] st1] l1].
  - intros [= <- <- <-]. eauto.
  - unfold _run_except.
    destruct (is_JSONDecodeError e); cbv [ret]; rewrite app_nil_r;
      intros [= <- <- <-]; eauto.
Qed.

Lemma send_getattr_inv attr proj st r st' log :
  getattr attr proj st = (r, st', log) ->
  st' = st /\ log = [] /\
  ((exists c, proj (self st) = Some c /\ r = Return c)
   \/ (proj (self st) = None /\ exists e, r = Raise e)).
Proof.
  cbv [getattr bind get]. destruct (proj (self st)) as [c|];
    cbv [ret raise]; intros [= <- <- <-]; eauto 8.
Qed.

Ltac send_step H :=
  lazymatch type of H with
  | (match files_api (self ?s) with _ => _ end) ?s = _ =>
      let E := fresh "Hfiles" in
      destruct (files_api (self s)) eqn:E;
      [ rewrite (send_client_step_some _ E) in H
      | rewrite (send_client_step_none _ E) in H ];
      injection H as ? ? ?; subst
  | getattr _ _ _ = _ =>
      apply send_getattr_inv in H;
      destruct H as (? & ? & [(? & ? & ?) | (? & ? & ?)]); subst
  end.

Lemma send_try_has_shape q st r st' log :
  _run_try env q st = (r, st', log) -> run_shape env q st st' log.
Proof.
  unfold _run_try. intros H.
  inv_run send_step H; subst; cbn [app]; rewrite ?app_nil_r;
    try solve [constructor].
  all: repeat match goal with
         | H : py_get _ _ VNone = Return _ |- _ =>
             apply py_get_inv in H; destruct H as (? & ? & ?)
         | H : py_get _ "comment" _ = Return _ |- _ =>
             apply py_get_comment_inv in H; destruct H as (? & ? & ?)
         | H : os_path_basename _ = Return _ |- _ =>
             apply basename_inv in H; destruct H as (? & ? & ?)
         end; subst.
  all: repeat match goal with
         | H : VDict _ = VDict _ |- _ => injection H as H; subst
         | H : Return _ = Return _ |- _ => injection H as H; subst
         | H : Return _ = Raise _ |- _ => discriminate H
         | H : Raise _ = Return _ |- _ => discriminate H
         end.
  all: cbn [self world next_oid] in *.
  all: try solve [ constructor; assumption
                 | eapply shape_upload; eauto
                 | eapply shape_send; eauto ].
Qed.

Lemma send_run_has_shape q st r st' log :
  _run env q st = (r, st', log) -> run_shape env q st st' log.
Proof.
  intros H. apply send_run_inv in H as [r0 H]. eapply send_try_has_shape, H.
Qed.

Lemma send_getattr_some attr proj st c :
  proj (self st) = Some c -> getattr attr proj st = (Return c, st, []).
Proof. cbv [getattr bind get]. intros ->. reflexivity. Qed.

(** *** The way past the checks on an object without clients *)

(** A request that passes the checks enters [_init_client], and the handler
    answers its failure: the file is not opened and no call is made. *)
Lemma send_run_init_fails q d st :
  json_loads env q = Return (VDict d) ->
  missing d "fax_number" = false ->
  missing d "subject" = false ->
  missing d "file_path" = false ->
  os_path_exists env (world st) (field d "file_path") = Return true ->
  files_api (self st) = None ->
  _run env q st =
    (Return ("Error sending fax: " ++ str_exn init_error),
     after_init st, [InitClient]).
Proof.
  unfold missing. intros Hq Hn Hs Hf Hx Hc.
  cbv [_run try_except _run_try bind lift observe remote get].
  rewrite Hq, !py_get_field, py_get_comment.
  cbv beta iota. rewrite Hn, Hs, Hf. cbv beta iota.
  rewrite Hx. cbn [negb]. cbv beta iota.
  rewrite (send_client_step_none _ Hc). reflexivity.
Qed.

Lemma send_run_reaches q st :
  reaches_client_step env (world st) q = true ->
  files_api (self st) = None ->
  _run env q st =
    (Return ("Error sending fax: " ++ str_exn init_error),
     after_init st, [InitClient]).
Proof.
  unfold reaches_client_step. intros H Hc.
  destruct (json_loads env q) as [v|e] eqn:Hq; [|discriminate H].
  destruct v as [| | | | | |d]; try discriminate H.
  destruct (missing d "fax_number") eqn:Hn; [discriminate H|].
  destruct (missing d "subject") eqn:Hs; [discriminate H|].
  destruct (missing d "file_path") eqn:Hf; [discriminate H|].
  destruct (os_path_exists env (world st) (field d "file_path"))
    as [found|e] eqn:Hx; [|discriminate H].
  cbn in H. subst found.
  now apply send_run_init_fails with d.
Qed.

(** A request that fails a check is answered before the client step. *)
Lemma send_run_stops_early q st :
  reaches_client_step env (world st) q = false ->
  exists s, _run env q st = (Return s, st, []).
Proof.
  unfold reaches_client_step, missing. intros H. step_run.
  destruct (json_loads env q) as [v|e] eqn:Hq.
  - destruct v as [| | | | | |d];
      try (cbn; eexists; reflexivity).
    rewrite !py_get_field, py_get_comment. cbv beta iota.
    destruct (negb (truthy (field d "fax_number"))); [eexists; reflexivity|].
    destruct (negb (truthy (field d "subject"))); [eexists; reflexivity|].
    destruct (negb (truthy (field d "file_path"))); [eexists; reflexivity|].
    cbv beta iota.
    destruct (os_path_exists env (world st) (field d "file_path"))
      as [found|e] eqn:Hx.
    + cbn in H. subst found. eexists. reflexivity.
    + destruct (is_JSONDecodeError e); eexists; reflexivity.
  - destruct (is_JSONDecodeError e); eexists; reflexivity.
Qed.

End Send.
End SendFacts.

(** ** The Status handler, step by step *)

Module StatusFacts.
Import Py Builtins FaxPlus FaxPlusStatusTool Request RequestFacts RunFacts
       StatusLife.

Ltac step_run :=
  cbv [_run try_except _run_try _run_except bind lift observe remote get ret
       raise emit].

Section Status.
Context {W : Type} (env : Env W).
Implicit Types (st : state tool W) (q : string) (d : list (string * value)).

Lemma status_run_invalid_json q e st :
  json_loads env q = Raise e -> is_JSONDecodeError e = true ->
  _run env q st =
    (Return "Error: Invalid JSON input. Please provide a valid JSON object.",
     st, []).
Proof. intros Hq He. step_run. rewrite Hq, He. reflexivity. Qed.

Lemma status_run_not_an_object q v st :
  json_loads env q = Return v ->
  (forall d, v <> VDict d) ->
  _run env q st =
    (Return ("Error checking fax status: '" ++ type_name v
               ++ "' object has no attribute 'get'"),
     st, []).
Proof.
  intros Hq Hv. step_run. rewrite Hq, (py_get_not_dict _ _ Hv). reflexivity.
Qed.

Lemma run_fax_id_missing q d st :
  json_loads env q = Return (VDict d) ->
  missing d "fax_id" = true ->
  _run env q st = (Return "Error: Fax ID is required", st, []).
Proof.
  unfold missing. intros Hq Hm.
  step_run. rewrite Hq, !py_get_field. cbv beta iota. rewrite Hm. reflexivity.
Qed.

(** *** The client step *)

(** [_init_client] constructs its client and fails at the assignment that
    would store it. *)
Lemma status_init_client_fails st :
  _init_client st = (Raise init_error, after_init st, [InitClient]).
Proof. reflexivity. Qed.

Lemma status_client_step_none st :
  outbox_api (self st) = None ->
  (match outbox_api (self st) with
   | None => _init_client
   | Some _ => Py.ret tt
   end) st = (Raise init_error, after_init st, [InitClient]).
Proof. intros ->. reflexivity. Qed.

Lemma status_client_step_some st c :
  outbox_api (self st) = Some c ->
  (match outbox_api (self st) with
   | None => _init_client
   | Some _ => Py.ret tt
   end) st = (Return tt, st, []).
Proof. intros ->. reflexivity. Qed.

(** *** The shape of every run *)

Lemma status_run_returns q st :
  exists s st' log, _run env q st = (Return s, st', log).
Proof.
  unfold _run, try_except.
  destruct (_run_try env q st) as [[[s|e] st1] l1].
  - eauto.
  - unfold _run_except. destruct (is_JSONDecodeError e); cbv [ret]; eauto.
Qed.

Lemma status_run_inv q st r st' log :
  _run env q st = (r, st', log) ->
  exists r0, _run_try env q st = (r0, st', log).
Proof.
  unfold _run, try_except.
  destruct (_run_try env q st) as [[[s|e] st1] l1].
  - intros [= <- <- <-]. eauto.
  - unfold _run_except.
    destruct (is_JSONDecodeError e); cbv [ret]; rewrite app_nil_r;
      intros [= <- <- <-]; eauto.
Qed.

Lemma status_getattr_inv attr proj st r st' log :
  getattr attr proj st = (r, st', log) ->
  st' = st /\ log = [] /\
  ((exists c, proj (self st) = Some c /\ r = Return c)
   \/ (proj (self st) = None /\ exists e, r = Raise e)).
Proof.
  cbv [getattr bind get]. destruct (proj (self st)) as [c|];
    cbv [ret raise]; intros [= <- <- <-]; eauto 8.
Qed.

Lemma status_getattr_some attr proj st c :
  proj (self st) = Some c -> getattr attr proj st = (Return c, st, []).
Proof. cbv [getattr bind get]. intros ->. reflexivity. Qed.

Ltac status_step H :=
  lazymatch type of H with
  | (match outbox_api (self ?s) with _ => _ end) ?s = _ =>
      let E := fresh "Houtbox" in
      destruct (outbox_api (self s)) eqn:E;
      [ rewrite (status_client_step_some _ E) in H
      | rewrite (status_client_step_none _ E) in H ];
      injection H as ? ? ?; subst
  | getattr _ _ _ = _ =>
      apply status_getattr_inv in H;
      destruct H as (? & ? & [(? & ? & ?) | (? & ? & ?)]); subst
  end.

Lemma status_try_has_shape q st r st' log :
  _run_try env q st = (r, st', log) -> run_shape env q st st' log.
Proof.
  unfold _run_try. intros H.
  inv_run status_step H; subst; cbn [app]; rewrite ?app_nil_r;
    try solve [constructor].
  all: repeat match goal with
         | H : py_get _ _ VNone = Return _ |- _ =>
             apply py_get_inv in H; destruct H as (? & ? & ?)
         end; subst.
  all: repeat match goal with
         | H : Return _ = Return _ |- _ => injection H as H; subst
         | H : Return _ = Raise _ |- _ => discriminate H
         | H : Raise _ = Return _ |- _ => discriminate H
         end.
  all: cbn [self world next_oid] in *.
  all: try solve [ constructor; assumption
                 | eapply shape_lookup; eauto ].
  all: congruence.
Qed.

Lemma status_run_has_shape q st r st' log :
  _run env q st = (r, st', log) -> run_shape env q st st' log.
Proof.
  intros H. apply status_run_inv in H as [r0 H]. eapply status_try_has_shape, H.
Qed.

(** *** The ways past the check *)

(** On an object without a client the handler enters [_init_client] and
    answers its failure. *)
Lemma status_run_init_fails q d st :
  json_loads env q = Return (VDict d) ->
  missing d "fax_id" = false ->
  outbox_api (self st) = None ->
  _run env q st =
    (Return ("Error checking fax status: " ++ str_exn init_error),
     after_init st, [InitClient]).
Proof.
  intros Hq Hm Hc. unfold missing in Hm.
  cbv [_run try_except _run_try bind lift observe remote get].
  rewrite Hq, !py_get_field. cbv beta iota. rewrite Hm. cbv beta iota.
  rewrite (status_client_step_none _ Hc). reflexivity.
Qed.

(** On an object that holds a client the handler asks the service; what it
    answers is the dump of [status_info], or the failure of the dump. *)
Lemma status_run_lookup q d st outbox fax_status w1 :
  json_loads env q = Return (VDict d) ->
  missing d "fax_id" = false ->
  outbox_api (self st) = Some outbox ->
  get_outbox_fax env outbox (account_id (self st)) (field d "fax_id") (world st)
    = (Return fax_status, w1) ->
  _run env q st =
    (Return
       match dumps_status_info env (status_info (field d "fax_id") fax_status) with
       | Return text => text
       | Raise e => "Error checking fax status: " ++ str_exn e
       end,
     {| self := self st; world := w1; next_oid := next_oid st |},
     [GetOutboxFax outbox (account_id (self st)) (field d "fax_id")]).
Proof.
  intros Hq Hm Hc Hget. unfold missing in Hm.
  cbv [_run try_except _run_try bind lift observe remote get].
  rewrite Hq, !py_get_field. cbv beta iota. rewrite Hm. cbv beta iota.
  rewrite (status_client_step_some _ Hc), (status_getattr_some _ _ _ Hc).
  cbn [self world next_oid]. rewrite Hget.
  unfold dumps_status_info.
  destruct (plain_items (status_info (field d "fax_id") fax_status))
    as [items|e] eqn:Hitems.
  - reflexivity.
  - assert (He : is_JSONDecodeError e = false).
    { revert Hitems. unfold status_info. cbn [plain_items].
      repeat match goal with
             | |- context [match ?a with Plain _ => _ | Object _ => _ end] =>
                 destruct a
             end; try discriminate; intros [= <-]; reflexivity. }
    cbv [_run_except]. rewrite He. reflexivity.
Qed.

(** A lookup that raises is answered through the handler's clauses. *)
Lemma status_run_lookup_raises q d st outbox e w1 :
  json_loads env q = Return (VDict d) ->
  missing d "fax_id" = false ->
  outbox_api (self st) = Some outbox ->
  get_outbox_fax env outbox (account_id (self st)) (field d "fax_id") (world st)
    = (Raise e, w1) ->
  _run env q st =
    (Return (if is_JSONDecodeError e
             then "Error: Invalid JSON input. Please provide a valid JSON object."
             else "Error checking fax status: " ++ str_exn e),
     {| self := self st; world := w1; next_oid := next_oid st |},
     [GetOutboxFax outbox (account_id (self st)) (field d "fax_id")]).
Proof.
  intros Hq Hm Hc Hget. unfold missing in Hm.
  cbv [_run try_except _run_try bind lift observe remote get].
  rewrite Hq, !py_get_field. cbv beta iota. rewrite Hm. cbv beta iota.
  rewrite (status_client_step_some _ Hc), (status_getattr_some _ _ _ Hc).
  cbn [self world next_oid]. rewrite Hget.
  cbv [_run_except]. destruct (is_JSONDecodeError e); reflexivity.
Qed.

Lemma status_run_reaches q st :
  reaches_client_step env q = true ->
  outbox_api (self st) = None ->
  _run env q st =
    (Return ("Error checking fax status: " ++ str_exn init_error),
     after_init st, [InitClient]).
Proof.
  unfold reaches_client_step. intros H Hc.
  destruct (json_loads env q) as [v|e] eqn:Hq; [|discriminate H].
  destruct v as [| | | | | |d]; try discriminate H.
  apply status_run_init_fails with d; auto.
  now destruct (missing d "fax_id").
Qed.

Lemma status_run_stops_early q st :
  reaches_client_step env q = false ->
  exists s, _run env q st = (Return s, st, []).
Proof.
  unfold reaches_client_step, missing. intros H. step_run.
  destruct (json_loads env q) as [v|e] eqn:Hq.
  - destruct v as [| | | | | |d];
      try (cbn; eexists; reflexivity).
    rewrite !py_get_field. cbv beta iota.
    destruct (negb (truthy (field d "fax_id"))); [|discriminate H].
    eexists. reflexivity.
  - destruct (is_JSONDecodeError e); eexists; reflexivity.
Qed.

End Status.
End StatusFacts.
(** ** Sequences of invocations *)

Module LogFacts.
Import FaxPlus Log.

Lemma init_count_app l1 l2 :
  init_count (l1 ++ l2) = (init_count l1 + init_count l2)%nat.
Proof. unfold init_count. rewrite filter_app, length_app. reflexivity. Qed.

Lemma upload_clients_app l1 l2 :
  upload_clients (l1 ++ l2) = (upload_clients l1 ++ upload_clients l2)%list.
Proof. unfold upload_clients. apply flat_map_app. Qed.

Lemma outbox_clients_app l1 l2 :
  outbox_clients (l1 ++ l2) = (outbox_clients l1 ++ outbox_clients l2)%list.
Proof. unfold outbox_clients. apply flat_map_app. Qed.

Lemma init_count_repeat k : init_count (repeat InitClient k) = k.
Proof.
  unfold init_count. induction k as [|k IH]; cbn; [reflexivity|].
  now rewrite IH.
Qed.

Lemma upload_clients_repeat k : upload_clients (repeat InitClient k) = [].
Proof. induction k as [|k IH]; cbn; [reflexivity|exact IH]. Qed.

Lemma outbox_clients_repeat k : outbox_clients (repeat InitClient k) = [].
Proof. induction k as [|k IH]; cbn; [reflexivity|exact IH]. Qed.

End LogFacts.

Module SendLifeFacts.
Import Py Builtins FaxPlus FaxPlusTool Request SendLife SendFacts Log LogFacts.

Section Life.
Context {W : Type} (env : Env W).
Implicit Types (st : state tool W) (q : string).

(** No invocation changes the tool object. *)
Lemma send_run_keeps_self q st r st' log :
  _run env q st = (r, st', log) -> self st' = self st.
Proof.
  intros H. apply send_run_has_shape in H. destruct H; reflexivity.
Qed.

(** On an object that holds its clients, an invocation constructs nothing
    and every call goes through the clients held. *)
Lemma send_run_with_clients q st c r st' log :
  files_api (self st) = Some c ->
  _run env q st = (r, st', log) ->
  self st' = self st /\ next_oid st' = next_oid st /\ init_count log = 0%nat /\
  (forall c', In c' (upload_clients log) -> c' = c) /\
  (forall c', In c' (outbox_clients log) -> outbox_api (self st) = Some c').
Proof.
  intros Hc H. apply send_run_has_shape in H.
  destruct H as [|Hnone|files d p content w Hf Hq Hp
                 |files outbox d p content payload w Hf Ho Hq Hp].
  - repeat split; cbn; contradiction.
  - congruence.
  - repeat split; cbn; intros c' Hin; intuition congruence.
  - repeat split; cbn; intros c' Hin; intuition congruence.
Qed.

Lemma send_invoke_all_with_clients queries : forall st c rs st' log,
  files_api (self st) = Some c ->
  invoke_all env queries st = (rs, st', log) ->
  self st' = self st /\ next_oid st' = next_oid st /\ init_count log = 0%nat /\
  (forall c', In c' (upload_clients log) -> c' = c) /\
  (forall c', In c' (outbox_clients log) -> outbox_api (self st) = Some c').
Proof.
  induction queries as [|q rest IH]; intros st c rs st' log Hc; cbn.
  - intros [= <- <- <-]. repeat split; cbn; contradiction.
  - destruct (_run env q st) as [[r st1] l1] eqn:Hrun.
    destruct (invoke_all env rest st1) as [[rs2 st2] l2] eqn:Hrest.
    intros [= <- <- <-].
    destruct (send_run_with_clients _ _ Hc Hrun) as (Hs1 & Hi1 & Hn1 & Hu1 & Ho1).
    assert (Hc1 : files_api (self st1) = Some c) by (rewrite Hs1; exact Hc).
    destruct (IH st1 c _ _ _ Hc1 Hrest) as (Hs2 & Hi2 & Hn2 & Hu2 & Ho2).
    rewrite Hs1 in Hs2, Ho2.
    rewrite init_count_app, upload_clients_app, outbox_clients_app, Hn1, Hn2.
    repeat split; [congruence|congruence| |];
      intros c' Hin; apply in_app_or in Hin; destruct Hin; auto.
Qed.

(** On an object without clients, every invocation that passes the checks
    enters [_init_client] and is answered its failure; the others are
    answered at a check.  Nothing is stored and nothing is called. *)
Lemma send_invoke_all_without_clients queries : forall st rs st' log,
  files_api (self st) = None ->
  invoke_all env queries st = (rs, st', log) ->
  let entered :=
    List.length (filter (reaches_client_step env (world st)) queries) in
  self st' = self st /\ world st' = world st
  /\ next_oid st' = (next_oid st + entered)%nat
  /\ log = repeat InitClient entered
  /\ List.length rs = List.length queries
  /\ (forall q r, In (q, r) (combine queries rs) ->
        reaches_client_step env (world st) q = true ->
        r = Return ("Error sending fax: " ++ str_exn init_error)).
Proof.
  induction queries as [|q rest IH]; intros st rs st' log Hnone; cbn.
  - intros [= <- <- <-]. repeat split; try contradiction. lia.
  - destruct (_run env q st) as [[r st1] l1] eqn:Hrun.
    destruct (invoke_all env rest st1) as [[rs2 st2] l2] eqn:Hrest.
    intros [= <- <- <-].
    destruct (reaches_client_step env (world st) q) eqn:Hreach.
    + rewrite (send_run_reaches env q st Hreach Hnone) in Hrun.
      injection Hrun as <- <- <-.
      destruct (IH (after_init st) _ _ _ Hnone Hrest)
        as (Hs & Hw & Hi & Hl & Hlen & Hrs).
      cbn [after_init self world next_oid] in *.
      repeat split; auto.
      * cbn [List.length]. lia.
      * cbn [List.length app repeat]. now rewrite Hl.
      * cbn [List.length]. now rewrite Hlen.
      * intros q0 r0 [[= <- <-]|Hin] Hq0; [reflexivity|]. eauto.
    + destruct (send_run_stops_early env q st Hreach) as [s Hs0].
      rewrite Hs0 in Hrun. injection Hrun as <- <- <-.
      destruct (IH st _ _ _ Hnone Hrest) as (Hs & Hw & Hi & Hl & Hlen & Hrs).
      repeat split; auto.
      * cbn [List.length]. now rewrite Hlen.
      * intros q0 r0 [[= <- <-]|Hin] Hq0; [congruence|]. eauto.
Qed.

End Life.
End SendLifeFacts.

Module StatusLifeFacts.
Import Py Builtins FaxPlus FaxPlusStatusTool Request StatusLife StatusFacts
       Log LogFacts.

Section Life.
Context {W : Type} (env : Env W).
Implicit Types (st : state tool W) (q : string).

Lemma status_run_keeps_self q st r st' log :
  _run env q st = (r, st', log) -> self st' = self st.
Proof.
  intros H. apply status_run_has_shape in H. destruct H; reflexivity.
Qed.

Lemma status_run_with_client q st c r st' log :
  outbox_api (self st) = Some c ->
  _run env q st = (r, st', log) ->
  self st' = self st /\ next_oid st' = next_oid st /\ init_count log = 0%nat /\
  (forall c', In c' (outbox_clients log) -> c' = c).
Proof.
  intros Hc H. apply status_run_has_shape in H.
  destruct H as [|Hnone|outbox d w Ho Hq].
  - repeat split; cbn; contradiction.
  - congruence.
  - repeat split; cbn; intros c' Hin; intuition congruence.
Qed.

Lemma status_invoke_all_with_client queries : forall st c rs st' log,
  outbox_api (self st) = Some c ->
  invoke_all env queries st = (rs, st', log) ->
  self st' = self st /\ next_oid st' = next_oid st /\ init_count log = 0%nat /\
  (forall c', In c' (outbox_clients log) -> c' = c).
Proof.
  induction queries as [|q rest IH]; intros st c rs st' log Hc; cbn.
  - intros [= <- <- <-]. repeat split; cbn; contradiction.
  - destruct (_run env q st) as [[r st1] l1] eqn:Hrun.
    destruct (invoke_all env rest st1) as [[rs2 st2] l2] eqn:Hrest.
    intros [= <- <- <-].
    destruct (status_run_with_client _ _ Hc Hrun) as (Hs1 & Hi1 & Hn1 & Ho1).
    assert (Hc1 : outbox_api (self st1) = Some c) by (rewrite Hs1; exact Hc).
    destruct (IH st1 c _ _ _ Hc1 Hrest) as (Hs2 & Hi2 & Hn2 & Ho2).
    rewrite init_count_app, outbox_clients_app, Hn1, Hn2.
    repeat split; [congruence|congruence|];
      intros c' Hin; apply in_app_or in Hin; destruct Hin; auto.
Qed.

Lemma status_invoke_all_without_client queries : forall st rs st' log,
  outbox_api (self st) = None ->
  invoke_all env queries st = (rs, st', log) ->
  let entered := List.length (filter (reaches_client_step env) queries) in
  self st' = self st /\ world st' = world st
  /\ next_oid st' = (next_oid st + entered)%nat
  /\ log = repeat InitClient entered
  /\ List.length rs = List.length queries
  /\ (forall q r, In (q, r) (combine queries rs) ->
        reaches_client_step env q = true ->
        r = Return ("Error checking fax status: " ++ str_exn init_error)).
Proof.
  induction queries as [|q rest IH]; intros st rs st' log Hnone; cbn.
  - intros [= <- <- <-]. repeat split; try contradiction. lia.
  - destruct (_run env q st) as [[r st1] l1] eqn:Hrun.
    destruct (invoke_all env rest st1) as [[rs2 st2] l2] eqn:Hrest.
    intros [= <- <- <-].
    destruct (reaches_client_step env q) eqn:Hreach.
    + rewrite (status_run_reaches env q st Hreach Hnone) in Hrun.
      injection Hrun as <- <- <-.
      destruct (IH (after_init st) _ _ _ Hnone Hrest)
        as (Hs & Hw & Hi & Hl & Hlen & Hrs).
      cbn [after_init self world next_oid] in *.
      repeat split; auto.
      * cbn [List.length]. lia.
      * cbn [List.length app repeat]. now rewrite Hl.
      * cbn [List.length]. now rewrite Hlen.
      * intros q0 r0 [[= <- <-]|Hin] Hq0; [reflexivity|]. eauto.
    + destruct (status_run_stops_early env q st Hreach) as [s Hs0].
      rewrite Hs0 in Hrun. injection Hrun as <- <- <-.
      destruct (IH st _ _ _ Hnone Hrest) as (Hs & Hw & Hi & Hl & Hlen & Hrs).
      repeat split; auto.
      * cbn [List.length]. now rewrite Hlen.
      * intros q0 r0 [[= <- <-]|Hin] Hq0; [congruence|]. eauto.
Qed.

End Life.
End StatusLifeFacts.

(** * The contract of the tools *)

Module Contract.
Import Py Builtins FaxPlus Request RequestFacts Log.

(** ** Validation *)

(** C1. A Send request that parses as a JSON object and misses a required
    field (the key is absent, or bound to a value that fails the handler's
    truth test) is answered with exactly the message of the first missing
    field in the order recipientNumber ("fax_number"), subject, filePath
    ("file_path").  The state is returned as it was and the log is empty:
    no client is built, and neither the upload nor the submission is
    called. *)
Theorem send_missing_required_field {W} (env : Env W) q d
  (st : state FaxPlusTool.tool W) :
  json_loads env q = Return (VDict d) ->
  missing d "fax_number" || missing d "subject" || missing d "file_path" = true ->
  FaxPlusTool._run env q st =
    (Return (if missing d "fax_number"
             then "Error: Recipient fax number is required"
             else if missing d "subject" then "Error: Subject is required"
             else "Error: File path is required"),
     st, []).
Proof.
  intros Hq Hm.
  destruct (missing d "fax_number") eqn:Hn.
  - exact (SendFacts.run_fax_number_missing env q st Hq Hn).
  - destruct (missing d "subject") eqn:Hs.
    + exact (SendFacts.run_subject_missing env q st Hq Hn Hs).
    + cbn in Hm.
      exact (SendFacts.run_file_path_missing env q st Hq Hn Hs Hm).
Qed.

Lemma send_missing_required_field_witness :
  let st := Mock.start Tests.send_tool Tests.disk_with_report in
  json_loads Tests.accepting Tests.q_no_subject = Return (VDict Tests.d_no_subject)
  /\ dict_lookup Tests.d_no_subject "subject" = None
  /\ FaxPlusTool._run Tests.accepting Tests.q_no_subject st
     = (Return "Error: Subject is required", st, []).
Proof.
  intros st. split; [reflexivity|]. split; [reflexivity|].
  exact (send_missing_required_field Tests.accepting Tests.q_no_subject
           (d := Tests.d_no_subject) st eq_refl eq_refl).
Defined.

(** C8. An input text that [json.loads] rejects with a JSON decode error is
    answered by the Send handler and by the Status handler with exactly
    "Error: Invalid JSON input. Please provide a valid JSON object."; the
    state is returned as it was and no call is logged. *)
Theorem invalid_json_input {W} (env : Env W) q e
  (st : state FaxPlusTool.tool W) (st' : state FaxPlusStatusTool.tool W) :
  json_loads env q = Raise e ->
  is_JSONDecodeError e = true ->
  FaxPlusTool._run env q st =
    (Return "Error: Invalid JSON input. Please provide a valid JSON object.",
     st, [])
  /\ FaxPlusStatusTool._run env q st' =
    (Return "Error: Invalid JSON input. Please provide a valid JSON object.",
     st', []).
Proof.
  intros Hq He. split.
  - exact (SendFacts.send_run_invalid_json env q st Hq He).
  - exact (StatusFacts.status_run_invalid_json env q st' Hq He).
Qed.

Lemma invalid_json_input_witness :
  let st := Mock.start Tests.send_tool Tests.disk_with_report in
  let st' := Mock.start Tests.status_tool Tests.disk_with_report in
  FaxPlusTool._run Tests.accepting Tests.q_garbage st =
    (Return "Error: Invalid JSON input. Please provide a valid JSON object.",
     st, [])
  /\ FaxPlusStatusTool._run Tests.accepting Tests.q_garbage st' =
    (Return "Error: Invalid JSON input. Please provide a valid JSON object.",
     st', []).
Proof.
  intros st st'.
  exact (invalid_json_input Tests.accepting Tests.q_garbage st st'
           eq_refl eq_refl).
Defined.

(** C3. A Send request with its three required fields present whose
    filePath ("file_path") names no existing file - [os.path.exists] answers
    False - is answered with exactly "Error: File not found at " followed by
    the path as an f-string prints it, which for a string path is the path
    itself.  The state is returned as it was and the log is empty: no upload
    is called. *)
Theorem send_file_not_found {W} (env : Env W) q d
  (st : state FaxPlusTool.tool W) :
  json_loads env q = Return (VDict d) ->
  missing d "fax_number" = false ->
  missing d "subject" = false ->
  missing d "file_path" = false ->
  os_path_exists env (world st) (field d "file_path") = Return false ->
  FaxPlusTool._run env q st =
    (Return ("Error: File not found at "
               ++ py_str (float_repr env) (str_repr env) (field d "file_path")),
     st, [])
  /\ (forall p, field d "file_path" = VStr p ->
        FaxPlusTool._run env q st =
          (Return ("Error: File not found at " ++ p), st, [])).
Proof.
  intros Hq Hn Hs Hf Hx.
  pose proof (SendFacts.run_file_not_found env q st Hq Hn Hs Hf Hx) as H.
  split; [exact H|]. intros p Hp. rewrite H, Hp. reflexivity.
Qed.

Lemma send_file_not_found_witness :
  let st := Mock.start Tests.send_tool [] in
  os_path_exists Tests.accepting (world st) (VStr "/tmp/Report.PDF")
    = Return false
  /\ FaxPlusTool._run Tests.accepting Tests.q_send st =
       (Return "Error: File not found at /tmp/Report.PDF", st, []).
Proof.
  intros st. split; [reflexivity|].
  exact (proj1 (send_file_not_found Tests.accepting Tests.q_send
                  (d := Tests.d_send) st
                  eq_refl eq_refl eq_refl eq_refl eq_refl)).
Defined.

(** C10. A required field that is present but bound to the empty string,
    null or any other falsy value is treated as an absent one.  Send: for
    fax_number, subject and file_path the handler answers the request exactly
    as it answers the same request without the field, with one of the three
    "... is required" messages.  Status: for fax_id the answer is
    "Error: Fax ID is required", with and without the field.  In all cases
    the state is returned as it was and no call is logged. *)
Theorem falsy_field_as_absent {W} (env : Env W) :
  (forall q q' d key v (st : state FaxPlusTool.tool W),
      In key ["fax_number"; "subject"; "file_path"] ->
      json_loads env q = Return (VDict d) ->
      json_loads env q' = Return (VDict (dict_remove d key)) ->
      dict_lookup d key = Some v ->
      truthy v = false ->
      FaxPlusTool._run env q st = FaxPlusTool._run env q' st
      /\ exists msg,
           In msg ["Error: Recipient fax number is required";
                   "Error: Subject is required";
                   "Error: File path is required"]
           /\ FaxPlusTool._run env q st = (Return msg, st, []))
  /\ (forall q q' d v (st : state FaxPlusStatusTool.tool W),
        json_loads env q = Return (VDict d) ->
        json_loads env q' = Return (VDict (dict_remove d "fax_id")) ->
        dict_lookup d "fax_id" = Some v ->
        truthy v = false ->
        FaxPlusStatusTool._run env q st =
          (Return "Error: Fax ID is required", st, [])
        /\ FaxPlusStatusTool._run env q' st =
          (Return "Error: Fax ID is required", st, [])).
Proof.
  split.
  - intros q q' d key v st Hkey Hq Hq' Hl Hv.
    pose proof (@falsy_missing d key v Hl Hv) as Hm.
    assert (Hany : missing d "fax_number" || missing d "subject"
                   || missing d "file_path" = true).
    { cbn in Hkey. destruct Hkey as [<-|[<-|[<-|[]]]]; rewrite Hm;
        rewrite ?orb_true_r; reflexivity. }
    pose proof (SendFacts.run_required_error env q st Hq Hany) as Hrun.
    assert (Hany' : missing (dict_remove d key) "fax_number"
                    || missing (dict_remove d key) "subject"
                    || missing (dict_remove d key) "file_path" = true).
    { rewrite !(@missing_remove_falsy d key v _ Hl Hv). exact Hany. }
    pose proof (SendFacts.run_required_error env q' st Hq' Hany') as Hrun'.
    rewrite !(@missing_remove_falsy d key v _ Hl Hv) in Hrun'.
    split; [congruence|].
    eexists. split; [|exact Hrun].
    destruct (missing d "fax_number"); [cbn; auto|].
    destruct (missing d "subject"); cbn; auto.
  - intros q q' d v st Hq Hq' Hl Hv. split.
    + apply StatusFacts.run_fax_id_missing with d; [exact Hq|].
      exact (@falsy_missing d "fax_id" v Hl Hv).
    + apply StatusFacts.run_fax_id_missing with (dict_remove d "fax_id");
        [exact Hq'|].
      apply absent_missing, lookup_remove_same.
Qed.

Lemma falsy_field_as_absent_witness :
  let st := Mock.start Tests.send_tool Tests.disk_with_report in
  let st' := Mock.start Tests.status_tool Tests.disk_with_report in
  (dict_lookup Tests.d_empty_subject "subject" = Some (VStr "")
   /\ dict_remove Tests.d_empty_subject "subject" = Tests.d_no_subject
   /\ FaxPlusTool._run Tests.accepting Tests.q_empty_subject st
      = FaxPlusTool._run Tests.accepting Tests.q_no_subject st)
  /\ (dict_lookup Tests.d_null_id "fax_id" = Some VNone
      /\ FaxPlusStatusTool._run Tests.accepting Tests.q_null_id st'
         = (Return "Error: Fax ID is required", st', [])).
Proof.
  intros st st'. split.
  - split; [reflexivity|]. split; [reflexivity|].
    exact (proj1 (proj1 (falsy_field_as_absent Tests.accepting)
                    Tests.q_empty_subject Tests.q_no_subject
                    Tests.d_empty_subject "subject" (VStr "") st
                    (or_intror (or_introl eq_refl))
                    eq_refl eq_refl eq_refl eq_refl)).
  - split; [reflexivity|].
    exact (proj1 (proj2 (falsy_field_as_absent Tests.accepting)
                    Tests.q_null_id "{}" Tests.d_null_id VNone st'
                    eq_refl eq_refl eq_refl eq_refl)).
Defined.

(** ** Failures *)

(** C2. Every invocation of the Send handler and of the Status handler
    returns one result string and raises nothing.  A failure raised anywhere
    in the handler that is not a JSON decode error - one raised by the remote
    service included - is caught and returned as "Error sending fax: " (Send)
    or "Error checking fax status: " (Status) followed by the failure's own
    description; the state and the log are those at the point of failure. *)
Theorem handlers_contain_failures {W} (env : Env W) q :
  (forall st : state FaxPlusTool.tool W,
      (exists s st' log, FaxPlusTool._run env q st = (Return s, st', log))
      /\ (forall e st' log,
            FaxPlusTool._run_try env q st = (Raise e, st', log) ->
            is_JSONDecodeError e = false ->
            FaxPlusTool._run env q st =
              (Return ("Error sending fax: " ++ str_exn e), st', log)))
  /\ (forall st : state FaxPlusStatusTool.tool W,
        (exists s st' log,
            FaxPlusStatusTool._run env q st = (Return s, st', log))
        /\ (forall e st' log,
              FaxPlusStatusTool._run_try env q st = (Raise e, st', log) ->
              is_JSONDecodeError e = false ->
              FaxPlusStatusTool._run env q st =
                (Return ("Error checking fax status: " ++ str_exn e),
                 st', log))).
Proof.
  split; intros st; split.
  - apply SendFacts.send_run_returns.
  - intros e st' log Hbody He.
    unfold FaxPlusTool._run, try_except, FaxPlusTool._run_except.
    rewrite Hbody, He. cbv [ret]. rewrite app_nil_r. reflexivity.
  - apply StatusFacts.status_run_returns.
  - intros e st' log Hbody He.
    unfold FaxPlusStatusTool._run, try_except, FaxPlusStatusTool._run_except.
    rewrite Hbody, He. cbv [ret]. rewrite app_nil_r. reflexivity.
Qed.

Lemma handlers_contain_failures_witness :
  let st := Mock.start Tests.send_tool Tests.disk_with_report in
  let st' := Mock.start Tests.status_tool Tests.disk_with_report in
  (FaxPlusTool._run_try Tests.accepting Tests.q_send st
     = (Raise SendLife.init_error, SendLife.after_init st, [InitClient])
   /\ FaxPlusTool._run Tests.accepting Tests.q_send st
     = (Return ("Error sending fax: " ++ DQ ++ "FaxPlusTool" ++ DQ
                  ++ " object has no field " ++ DQ ++ "files_api" ++ DQ),
        SendLife.after_init st, [InitClient]))
  /\ (FaxPlusStatusTool._run_try Tests.failing Tests.q_status Tests.status_ready
        = (Raise Tests.service_down, Tests.status_ready,
           [GetOutboxFax (ApiClient 0 "key") "acct" (VStr "fax-A")])
      /\ FaxPlusStatusTool._run Tests.failing Tests.q_status Tests.status_ready
        = (Return "Error checking fax status: (503) Service Unavailable",
           Tests.status_ready,
           [GetOutboxFax (ApiClient 0 "key") "acct" (VStr "fax-A")])).
Proof.
  intros st st'. split.
  - split; [reflexivity|].
    exact (proj2 (proj1 (handlers_contain_failures Tests.accepting Tests.q_send)
                    st) SendLife.init_error _ _ eq_refl eq_refl).
  - split; [reflexivity|].
    exact (proj2 (proj2 (handlers_contain_failures Tests.failing Tests.q_status)
                    Tests.status_ready) Tests.service_down _ _ eq_refl eq_refl).
Defined.

(** ** The upload and the submission *)

(** C4. Whenever a Send invocation calls the upload, the MIME type it passes
    is the table's entry for the lowered extension of the uploaded file name,
    itself the base name of the request's file_path; the table maps .pdf,
    .tiff and .tif, .jpg and .jpeg, .png, .doc, .docx and .txt as listed, and
    every other extension to application/octet-stream. *)
Theorem upload_mime_type_from_extension {W} (env : Env W) q
  (st : state FaxPlusTool.tool W) :
  (forall r st' log c account content fname mime,
      FaxPlusTool._run env q st = (r, st', log) ->
      In (UploadFile c account content fname mime) log ->
      mime = FaxPlusTool._get_mime_type (lower (snd (splitext fname)))
      /\ exists d p,
           json_loads env q = Return (VDict d)
           /\ field d "file_path" = VStr p /\ fname = basename_str p)
  /\ (FaxPlusTool._get_mime_type ".pdf" = "application/pdf"
      /\ FaxPlusTool._get_mime_type ".tiff" = "image/tiff"
      /\ FaxPlusTool._get_mime_type ".tif" = "image/tiff"
      /\ FaxPlusTool._get_mime_type ".jpg" = "image/jpeg"
      /\ FaxPlusTool._get_mime_type ".jpeg" = "image/jpeg"
      /\ FaxPlusTool._get_mime_type ".png" = "image/png"
      /\ FaxPlusTool._get_mime_type ".doc" = "application/msword"
      /\ FaxPlusTool._get_mime_type ".docx" =
           "application/vnd.openxmlformats-officedocument.wordprocessingml.document"
      /\ FaxPlusTool._get_mime_type ".txt" = "text/plain")
  /\ (forall extension,
        ~ In extension [".pdf"; ".tiff"; ".tif"; ".jpg"; ".jpeg"; ".png";
                        ".doc"; ".docx"; ".txt"] ->
        FaxPlusTool._get_mime_type extension = "application/octet-stream").
Proof.
  split; [|split].
  - intros r st' log c account content fname mime Hrun Hin.
    apply SendFacts.send_run_has_shape in Hrun.
    destruct Hrun as [|Hnone|files d p content0 w Hf Hq Hp
                      |files outbox d p content0 payload w Hf Ho Hq Hp].
    + destruct Hin.
    + cbn in Hin. destruct Hin as [Hev|[]]. discriminate Hev.
    + cbn in Hin. destruct Hin as [Hev|[]].
      unfold SendLife.upload_of in Hev. injection Hev as <- <- <- <- <-.
      split; [reflexivity|]. exists d, p. auto.
    + cbn in Hin. destruct Hin as [Hev|[Hev|[]]]; [|discriminate Hev].
      unfold SendLife.upload_of in Hev. injection Hev as <- <- <- <- <-.
      split; [reflexivity|]. exists d, p. auto.
  - repeat split.
  - intros extension Hnot.
    unfold FaxPlusTool._get_mime_type, FaxPlusTool.mime_types. cbn [table_get].
    repeat match goal with
           | |- context [(?k =? extension)%string] =>
               destruct (String.eqb_spec k extension) as [Heq|_];
               [exfalso; apply Hnot; rewrite <- Heq; cbn; tauto|]
           end.
    reflexivity.
Qed.

Lemma upload_mime_type_from_extension_witness :
  let st := Tests.send_ready in
  (exists r st' log c account content,
      FaxPlusTool._run Tests.accepting Tests.q_send st = (r, st', log)
      /\ In (UploadFile c account content "Report.PDF" "application/pdf") log
      /\ "application/pdf"
         = FaxPlusTool._get_mime_type (lower (snd (splitext "Report.PDF"))))
  /\ (~ In ".gif" [".pdf"; ".tiff"; ".tif"; ".jpg"; ".jpeg"; ".png";
                   ".doc"; ".docx"; ".txt"]
      /\ FaxPlusTool._get_mime_type ".gif" = "application/octet-stream").
Proof.
  intros st.
  assert (Hgif : ~ In ".gif" [".pdf"; ".tiff"; ".tif"; ".jpg"; ".jpeg"; ".png";
                              ".doc"; ".docx"; ".txt"]).
  { cbn. intuition discriminate. }
  split.
  - do 6 eexists. split; [reflexivity|].
    assert (Hin : In (UploadFile (ApiClient 0 "key") "acct"
                        [Byte.x25; Byte.x50; Byte.x44; Byte.x46]
                        "Report.PDF" "application/pdf")
                    [UploadFile (ApiClient 0 "key") "acct"
                       [Byte.x25; Byte.x50; Byte.x44; Byte.x46]
                       "Report.PDF" "application/pdf";
                     SendFax (ApiClient 1 "key") "acct"
                       {| fax := {| to := VStr "+14155552671";
                                    subject := VStr "Hello";
                                    comment := VStr "";
                                    file_id := "file-1";
                                    direction := OUTBOUND;
                                    category := GENERAL |} |}]).
    { left. reflexivity. }
    split; [exact Hin|].
    exact (proj1 (proj1 (upload_mime_type_from_extension
                           Tests.accepting Tests.q_send st)
                    _ _ _ _ _ _ _ _ eq_refl Hin)).
  - split; [exact Hgif|].
    exact (proj2 (proj2 (upload_mime_type_from_extension
                           Tests.accepting Tests.q_send st)) ".gif" Hgif).
Defined.

(** C5, against the code.  A Send request with its required fields present
    and a file_path that names an existing file, given to a tool object that
    holds no clients - every object the class constructs - is not sent.  The
    handler enters [_init_client], which constructs its first client and is
    refused the assignment [self.files_api = ...]: the class is a pydantic
    model that declares no such field.  The answer is "Error sending fax: "
    followed by that refusal, whatever the file holds and whatever the
    remote service would answer; no client is stored, the file is not
    opened, and neither the upload nor the submission is called.  The
    answer is not "Fax successfully queued. Fax ID: " followed by an id. *)
Theorem send_valid_request_is_not_sent {W} (env : Env W) q d
  (st : state FaxPlusTool.tool W) :
  json_loads env q = Return (VDict d) ->
  missing d "fax_number" = false ->
  missing d "subject" = false ->
  missing d "file_path" = false ->
  os_path_exists env (world st) (field d "file_path") = Return true ->
  FaxPlusTool.files_api (self st) = None ->
  FaxPlusTool._run env q st =
    (Return ("Error sending fax: " ++ DQ ++ "FaxPlusTool" ++ DQ
               ++ " object has no field " ++ DQ ++ "files_api" ++ DQ),
     {| self := self st; world := world st; next_oid := S (next_oid st) |},
     [InitClient])
  /\ (forall id,
        fst (fst (FaxPlusTool._run env q st))
        <> Return ("Fax successfully queued. Fax ID: " ++ id)).
Proof.
  intros Hq Hn Hs Hf Hx Hc.
  pose proof (SendFacts.send_run_init_fails env q st Hq Hn Hs Hf Hx Hc) as H.
  split; [exact H|].
  intros id. rewrite H. cbn. intros Heq. discriminate Heq.
Qed.

Lemma send_valid_request_is_not_sent_witness :
  let st := Mock.start (FaxPlusTool.new "key" "acct") Tests.disk_with_report in
  (os_path_exists Tests.accepting (world st) (VStr "/tmp/Report.PDF")
     = Return true
   /\ open_read Tests.accepting (world st) (VStr "/tmp/Report.PDF")
     = Return [Byte.x25; Byte.x50; Byte.x44; Byte.x46])
  /\ (forall c account content file_name mime_type w,
        upload_file Tests.accepting c account content file_name mime_type w
        = (Return {| uploaded_id := "file-1" |}, w))
  /\ (forall c account payload w,
        send_fax Tests.accepting c account payload w
        = (Return {| fax_result_id := "fax-9" |}, w))
  /\ FaxPlusTool._run Tests.accepting Tests.q_send st =
       (Return ("Error sending fax: " ++ DQ ++ "FaxPlusTool" ++ DQ
                  ++ " object has no field " ++ DQ ++ "files_api" ++ DQ),
        {| self := FaxPlusTool.new "key" "acct";
           world := Tests.disk_with_report; next_oid := 1 |},
        [InitClient]).
Proof.
  intros st. split; [split; reflexivity|].
  split; [reflexivity|]. split; [reflexivity|].
  exact (proj1 (send_valid_request_is_not_sent Tests.accepting Tests.q_send
                  (d := Tests.d_send) st
                  eq_refl eq_refl eq_refl eq_refl eq_refl eq_refl)).
Defined.

(** ** The status block *)

(** C6, against the code.  A Status request with a fax_id, given to a tool
    object that holds no client - every object the class constructs - is not
    looked up.  The handler enters [_init_client], which constructs the
    client and is refused the assignment [self.outbox_api = ...].  The
    answer is "Error checking fax status: " followed by that refusal,
    whatever record the remote service holds for the id; the service is not
    asked, and the answer is no key/value block. *)
Theorem status_request_is_not_looked_up {W} (env : Env W) q d
  (st : state FaxPlusStatusTool.tool W) :
  json_loads env q = Return (VDict d) ->
  missing d "fax_id" = false ->
  FaxPlusStatusTool.outbox_api (self st) = None ->
  FaxPlusStatusTool._run env q st =
    (Return ("Error checking fax status: " ++ DQ ++ "FaxPlusStatusTool" ++ DQ
               ++ " object has no field " ++ DQ ++ "outbox_api" ++ DQ),
     {| self := self st; world := world st; next_oid := S (next_oid st) |},
     [InitClient])
  /\ (forall entries,
        fst (fst (FaxPlusStatusTool._run env q st))
        <> Return (StatusLife.text_block entries)).
Proof.
  intros Hq Hm Hc.
  pose proof (StatusFacts.status_run_init_fails env q st Hq Hm Hc) as H.
  split; [exact H|].
  intros entries. rewrite H. cbn. intros Heq. discriminate Heq.
Qed.

Lemma status_request_is_not_looked_up_witness :
  let st :=
    Mock.start (FaxPlusStatusTool.new "key" "acct") Tests.disk_with_report in
  (forall c account fax_id w,
      get_outbox_fax Tests.accepting c account fax_id w
      = (Return Tests.a_record, w))
  /\ FaxPlusStatusTool._run Tests.accepting Tests.q_status st =
       (Return ("Error checking fax status: " ++ DQ ++ "FaxPlusStatusTool"
                  ++ DQ ++ " object has no field " ++ DQ ++ "outbox_api"
                  ++ DQ),
        {| self := FaxPlusStatusTool.new "key" "acct";
           world := Tests.disk_with_report; next_oid := 1 |},
        [InitClient]).
Proof.
  intros st. split; [reflexivity|].
  exact (proj1 (status_request_is_not_looked_up Tests.accepting Tests.q_status
                  (d := Tests.d_status) st eq_refl eq_refl eq_refl)).
Defined.

(** ** The History handler *)

(** C7.  The package names a History handler but the tools module defines
    none: [tools.py] binds neither FaxHistoryTool nor the two other names
    that [__init__.py] imports on its line 10, so importing the package
    raises ImportError at the first of them. *)
Theorem history_tool_not_defined :
  Package.defines Package.tools_namespace "FaxHistoryTool" = false
  /\ Package.package_init =
       Raise (Exn ImportError
                "cannot import name 'FaxSenderTool' from 'langchain_fax.tools'").
Proof. split; reflexivity. Qed.

(** ** The clients of a tool object *)

(** C9, against the code.  Take any sequence of invocations on one tool
    object, from its construction on.  [_init_client] is entered once for
    every invocation that passes the checks of the handler - not once for the
    sequence - and each time it fails at its first assignment: the log of the
    sequence is that many client constructions and nothing else, each such
    invocation is answered the refusal of the assignment, and the object at
    the end is the object as constructed, holding no client.  So no client is
    reused, and no remote call is made.  The same holds of both tools. *)
Theorem client_is_never_stored {W} (env : Env W) key account (w : W) n :
  (forall queries rs st log,
      SendLife.invoke_all env queries
        {| self := FaxPlusTool.new key account; world := w; next_oid := n |}
        = (rs, st, log) ->
      let entered :=
        List.length (filter (SendLife.reaches_client_step env w) queries) in
      self st = FaxPlusTool.new key account
      /\ world st = w
      /\ init_count log = entered
      /\ log = repeat InitClient entered
      /\ upload_clients log = []
      /\ outbox_clients log = []
      /\ (forall q r, In (q, r) (combine queries rs) ->
            SendLife.reaches_client_step env w q = true ->
            r = Return ("Error sending fax: " ++ DQ ++ "FaxPlusTool" ++ DQ
                          ++ " object has no field " ++ DQ ++ "files_api"
                          ++ DQ)))
  /\ (forall queries rs st log,
        StatusLife.invoke_all env queries
          {| self := FaxPlusStatusTool.new key account; world := w;
             next_oid := n |}
          = (rs, st, log) ->
        let entered :=
          List.length (filter (StatusLife.reaches_client_step env) queries) in
        self st = FaxPlusStatusTool.new key account
        /\ world st = w
        /\ init_count log = entered
        /\ log = repeat InitClient entered
        /\ outbox_clients log = []
        /\ (forall q r, In (q, r) (combine queries rs) ->
              StatusLife.reaches_client_step env q = true ->
              r = Return ("Error checking fax status: " ++ DQ
                            ++ "FaxPlusStatusTool" ++ DQ
                            ++ " object has no field " ++ DQ ++ "outbox_api"
                            ++ DQ))).
Proof.
  split; intros queries rs st log Hall entered.
  - apply SendLifeFacts.send_invoke_all_without_clients in Hall;
      [|reflexivity].
    destruct Hall as (Hs & Hw & _ & Hl & _ & Hrs).
    cbn [self world] in Hs, Hw, Hl, Hrs. fold entered in Hl.
    repeat match goal with |- _ /\ _ => split end; auto.
    + rewrite Hl. apply LogFacts.init_count_repeat.
    + rewrite Hl. apply LogFacts.upload_clients_repeat.
    + rewrite Hl. apply LogFacts.outbox_clients_repeat.
  - apply StatusLifeFacts.status_invoke_all_without_client in Hall;
      [|reflexivity].
    destruct Hall as (Hs & Hw & _ & Hl & _ & Hrs).
    cbn [self world] in Hs, Hw, Hl, Hrs. fold entered in Hl.
    repeat match goal with |- _ /\ _ => split end; auto.
    + rewrite Hl. apply LogFacts.init_count_repeat.
    + rewrite Hl. apply LogFacts.outbox_clients_repeat.
Qed.

Lemma client_is_never_stored_witness :
  let queries := [Tests.q_garbage; Tests.q_send; Tests.q_send] in
  let run :=
    SendLife.invoke_all Tests.accepting queries
      (Mock.start (FaxPlusTool.new "key" "acct") Tests.disk_with_report) in
  let queries' := [Tests.q_null_id; Tests.q_status; Tests.q_status] in
  let run' :=
    StatusLife.invoke_all Tests.accepting queries'
      (Mock.start (FaxPlusStatusTool.new "key" "acct")
         Tests.disk_with_report) in
  (init_count (snd run) = 2%nat
   /\ FaxPlusTool.files_api (self (snd (fst run))) = None
   /\ upload_clients (snd run) = [])
  /\ (init_count (snd run') = 2%nat
      /\ FaxPlusStatusTool.outbox_api (self (snd (fst run'))) = None
      /\ outbox_clients (snd run') = []).
Proof.
  intros queries run queries' run'.
  pose proof (client_is_never_stored Tests.accepting "key" "acct"
                Tests.disk_with_report 0) as [Hsend Hstatus].
  specialize (Hsend queries (fst (fst run)) (snd (fst run)) (snd run) eq_refl).
  specialize (Hstatus queries' (fst (fst run')) (snd (fst run')) (snd run')
                eq_refl).
  destruct Hsend as (Hs & _ & Hn & _ & Hu & _).
  destruct Hstatus as (Hs' & _ & Hn' & _ & Ho & _).
  split.
  - split; [exact Hn|]. split; [rewrite Hs; reflexivity|exact Hu].
  - split; [exact Hn'|]. split; [rewrite Hs'; reflexivity|exact Ho].
Defined.

End Contract.

(** * Further behaviour of the handlers *)

(** ** The Send handler past its checks *)

Module SendPaths.
Import Py Builtins FaxPlus FaxPlusTool Request RequestFacts RunFacts SendLife
       SendFacts.

Section Paths.
Context {W : Type} (env : Env W).
Implicit Types (st : state tool W) (q : string) (d : list (string * value)).

(** The [try] block up to the client step, for a request that passes the
    checks. *)
Ltac pass_checks Hq Hn Hs Hf Hx :=
  unfold missing in Hn, Hs, Hf;
  cbv [_run_try bind lift observe remote get];
  rewrite Hq, !py_get_field, py_get_comment;
  cbv beta iota; rewrite Hn, Hs, Hf; cbv beta iota;
  rewrite Hx; cbn [negb]; cbv beta iota.

(** On an object without clients the block ends in [_init_client]. *)
Lemma try_init_raises q d st :
  json_loads env q = Return (VDict d) ->
  missing d "fax_number" = false ->
  missing d "subject" = false ->
  missing d "file_path" = false ->
  os_path_exists env (world st) (field d "file_path") = Return true ->
  files_api (self st) = None ->
  _run_try env q st = (Raise init_error, after_init st, [InitClient]).
Proof.
  intros Hq Hn Hs Hf Hx Hc. pass_checks Hq Hn Hs Hf Hx.
  rewrite (send_client_step_none _ Hc). reflexivity.
Qed.

(** On an object that holds its clients the block goes on to the file. *)
Lemma try_read_raises q d st files e :
  json_loads env q = Return (VDict d) ->
  missing d "fax_number" = false ->
  missing d "subject" = false ->
  missing d "file_path" = false ->
  os_path_exists env (world st) (field d "file_path") = Return true ->
  files_api (self st) = Some files ->
  open_read env (world st) (field d "file_path") = Raise e ->
  _run_try env q st = (Raise e, st, []).
Proof.
  intros Hq Hn Hs Hf Hx Hc Hr. pass_checks Hq Hn Hs Hf Hx.
  rewrite (send_client_step_some _ Hc), Hr. reflexivity.
Qed.

Lemma try_basename_raises q d st files content :
  json_loads env q = Return (VDict d) ->
  missing d "fax_number" = false ->
  missing d "subject" = false ->
  missing d "file_path" = false ->
  os_path_exists env (world st) (field d "file_path") = Return true ->
  files_api (self st) = Some files ->
  open_read env (world st) (field d "file_path") = Return content ->
  (forall p, field d "file_path" <> VStr p) ->
  _run_try env q st =
    (Raise (Exn TypeError
              ("expected str, bytes or os.PathLike object, not "
                 ++ type_name (field d "file_path"))),
     st, []).
Proof.
  intros Hq Hn Hs Hf Hx Hc Hr Hp. pass_checks Hq Hn Hs Hf Hx.
  rewrite (send_client_step_some _ Hc), Hr.
  destruct (field d "file_path") as [| | | |p| |] eqn:E;
    try (cbn; rewrite ?app_nil_r; reflexivity).
  exfalso. exact (Hp p eq_refl).
Qed.

Lemma try_upload_raises q d st p content files e w1 :
  json_loads env q = Return (VDict d) ->
  missing d "fax_number" = false ->
  missing d "subject" = false ->
  missing d "file_path" = false ->
  field d "file_path" = VStr p ->
  os_path_exists env (world st) (VStr p) = Return true ->
  open_read env (world st) (VStr p) = Return content ->
  files_api (self st) = Some files ->
  upload_file env files (account_id (self st)) content (basename_str p)
    (_get_mime_type (lower (snd (splitext (basename_str p))))) (world st)
    = (Raise e, w1) ->
  _run_try env q st =
    (Raise e,
     {| self := self st; world := w1; next_oid := next_oid st |},
     [UploadFile files (account_id (self st)) content (basename_str p)
        (_get_mime_type (lower (snd (splitext (basename_str p)))))]).
Proof.
  intros Hq Hn Hs Hf Hp Hx Hr Hfiles Hup. rewrite <- Hp in Hx, Hr.
  pass_checks Hq Hn Hs Hf Hx.
  rewrite (send_client_step_some _ Hfiles), Hr, Hp. cbn [os_path_basename].
  rewrite (send_getattr_some _ _ _ Hfiles), Hup.
  reflexivity.
Qed.

Lemma try_submit_raises q d st p content files outbox up w1 e w2 :
  json_loads env q = Return (VDict d) ->
  missing d "fax_number" = false ->
  missing d "subject" = false ->
  missing d "file_path" = false ->
  field d "file_path" = VStr p ->
  os_path_exists env (world st) (VStr p) = Return true ->
  open_read env (world st) (VStr p) = Return content ->
  files_api (self st) = Some files ->
  outbox_api (self st) = Some outbox ->
  let account := account_id (self st) in
  let file_name := basename_str p in
  let mime_type := _get_mime_type (lower (snd (splitext file_name))) in
  let payload :=
    {| fax := {| to := field d "fax_number"; subject := field d "subject";
                 comment := comment_of d; file_id := uploaded_id up;
                 direction := OUTBOUND; category := GENERAL |} |} in
  upload_file env files account content file_name mime_type (world st)
    = (Return up, w1) ->
  send_fax env outbox account payload w1 = (Raise e, w2) ->
  _run_try env q st =
    (Raise e,
     {| self := self st; world := w2; next_oid := next_oid st |},
     [UploadFile files account content file_name mime_type;
      SendFax outbox account payload]).
Proof.
  intros Hq Hn Hs Hf Hp Hx Hr Hfiles Houtbox.
  intros account file_name mime_type payload Hup Hsend.
  rewrite <- Hp in Hx, Hr.
  pass_checks Hq Hn Hs Hf Hx.
  rewrite (send_client_step_some _ Hfiles), Hr, Hp. cbn [os_path_basename].
  rewrite (send_getattr_some _ _ _ Hfiles).
  fold account file_name mime_type. rewrite Hup.
  erewrite (@send_getattr_some _ "outbox_api" outbox_api) by exact Houtbox.
  cbn [self world next_oid].
  fold account payload. rewrite Hsend.
  reflexivity.
Qed.

Lemma try_submit_returns q d st p content files outbox up w1 fr w2 :
  json_loads env q = Return (VDict d) ->
  missing d "fax_number" = false ->
  missing d "subject" = false ->
  missing d "file_path" = false ->
  field d "file_path" = VStr p ->
  os_path_exists env (world st) (VStr p) = Return true ->
  open_read env (world st) (VStr p) = Return content ->
  files_api (self st) = Some files ->
  outbox_api (self st) = Some outbox ->
  let account := account_id (self st) in
  let file_name := basename_str p in
  let mime_type := _get_mime_type (lower (snd (splitext file_name))) in
  let payload :=
    {| fax := {| to := field d "fax_number"; subject := field d "subject";
                 comment := comment_of d; file_id := uploaded_id up;
                 direction := OUTBOUND; category := GENERAL |} |} in
  upload_file env files account content file_name mime_type (world st)
    = (Return up, w1) ->
  send_fax env outbox account payload w1 = (Return fr, w2) ->
  _run env q st =
    (Return ("Fax successfully queued. Fax ID: " ++ fax_result_id fr),
     {| self := self st; world := w2; next_oid := next_oid st |},
     [UploadFile files account content file_name mime_type;
      SendFax outbox account payload]).
Proof.
  intros Hq Hn Hs Hf Hp Hx Hr Hfiles Houtbox.
  intros account file_name mime_type payload Hup Hsend.
  rewrite <- Hp in Hx, Hr.
  unfold _run, try_except.
  pass_checks Hq Hn Hs Hf Hx.
  rewrite (send_client_step_some _ Hfiles), Hr, Hp. cbn [os_path_basename].
  rewrite (send_getattr_some _ _ _ Hfiles).
  fold account file_name mime_type. rewrite Hup.
  erewrite (@send_getattr_some _ "outbox_api" outbox_api) by exact Houtbox.
  cbn [self world next_oid].
  fold account payload. rewrite Hsend.
  reflexivity.
Qed.

(** How [_run] answers a failure of its [try] block. *)
Lemma run_of_raise q st e st' log :
  _run_try env q st = (Raise e, st', log) ->
  _run env q st =
    (Return (if is_JSONDecodeError e
             then "Error: Invalid JSON input. Please provide a valid JSON object."
             else "Error sending fax: " ++ str_exn e),
     st', log).
Proof.
  intros H. unfold _run, try_except, _run_except. rewrite H.
  destruct (is_JSONDecodeError e); cbv [ret]; rewrite app_nil_r; reflexivity.
Qed.

End Paths.
End SendPaths.

(** ** The calls of a Send run, read back from its log *)

Module SendCalls.
Import Py Builtins FaxPlus FaxPlusTool Request RequestFacts RunFacts SendLife
       SendFacts.

Section Calls.
Context {W : Type} (env : Env W).
Implicit Types (st : state tool W) (q : string) (d : list (string * value)).

Ltac calls_step H :=
  lazymatch type of H with
  | (match files_api (self ?s) with _ => _ end) ?s = _ =>
      let E := fresh "Hfiles" in
      destruct (files_api (self s)) eqn:E;
      [ rewrite (send_client_step_some _ E) in H
      | rewrite (send_client_step_none _ E) in H ];
      injection H as ? ? ?; subst
  | getattr _ _ _ = _ =>
      apply send_getattr_inv in H;
      destruct H as (? & ? & [(? & ? & ?) | (? & ? & ?)]); subst
  end.

(** Every submission in the log of a run was made from the request's fields
    and the id the upload of the same run returned. *)
Lemma try_submission q st r st' log c account payload :
  _run_try env q st = (r, st', log) ->
  In (SendFax c account payload) log ->
  exists d p content files up w1,
    json_loads env q = Return (VDict d)
    /\ field d "file_path" = VStr p
    /\ account = account_id (self st)
    /\ outbox_api (self st) = Some c
    /\ upload_file env files account content (basename_str p)
         (_get_mime_type (lower (snd (splitext (basename_str p))))) (world st)
       = (Return up, w1)
    /\ In (UploadFile files account content (basename_str p)
             (_get_mime_type (lower (snd (splitext (basename_str p)))))) log
    /\ payload =
         {| fax := {| to := field d "fax_number"; subject := field d "subject";
                      comment := comment_of d; file_id := uploaded_id up;
                      direction := OUTBOUND; category := GENERAL |} |}.
Proof.
  unfold _run_try. intros H Hin.
  inv_run calls_step H; subst; cbn [app] in Hin; rewrite ?app_nil_r in Hin;
    try contradiction.
  all: repeat match goal with
         | H : py_get _ _ VNone = Return _ |- _ =>
             apply py_get_inv in H; destruct H as (? & ? & ?)
         | H : py_get _ "comment" _ = Return _ |- _ =>
             apply py_get_comment_inv in H; destruct H as (? & ? & ?)
         | H : os_path_basename _ = Return _ |- _ =>
             apply basename_inv in H; destruct H as (? & ? & ?)
         end; subst.
  all: repeat match goal with
         | H : VDict _ = VDict _ |- _ => injection H as H; subst
         | H : Return _ = Return _ |- _ => injection H as H; subst
         | H : Return _ = Raise _ |- _ => discriminate H
         | H : Raise _ = Return _ |- _ => discriminate H
         end.
  all: cbn [self world next_oid] in *.
  all: cbn in Hin; repeat destruct Hin as [Hin|Hin]; try discriminate Hin;
    try contradiction.
  all: injection Hin as <- <- <-.
  all: do 6 eexists;
    repeat match goal with |- _ /\ _ => split end; eauto.
  all: cbn [app]; left; reflexivity.
Qed.

Lemma run_submission q st r st' log c account payload :
  _run env q st = (r, st', log) ->
  In (SendFax c account payload) log ->
  exists d p content files up w1,
    json_loads env q = Return (VDict d)
    /\ field d "file_path" = VStr p
    /\ account = account_id (self st)
    /\ outbox_api (self st) = Some c
    /\ upload_file env files account content (basename_str p)
         (_get_mime_type (lower (snd (splitext (basename_str p))))) (world st)
       = (Return up, w1)
    /\ In (UploadFile files account content (basename_str p)
             (_get_mime_type (lower (snd (splitext (basename_str p)))))) log
    /\ payload =
         {| fax := {| to := field d "fax_number"; subject := field d "subject";
                      comment := comment_of d; file_id := uploaded_id up;
                      direction := OUTBOUND; category := GENERAL |} |}.
Proof.
  intros H. apply send_run_inv in H as [r0 H]. eapply try_submission, H.
Qed.

(** An upload found in the log of a run is the run's only one and stands
    first. *)
Lemma run_upload q st r st' log c account content fname mime :
  _run env q st = (r, st', log) ->
  In (UploadFile c account content fname mime) log ->
  exists d p,
    json_loads env q = Return (VDict d)
    /\ field d "file_path" = VStr p
    /\ files_api (self st) = Some c
    /\ UploadFile c account content fname mime
       = upload_of c st content (basename_str p).
Proof.
  intros Hrun Hin. apply send_run_has_shape in Hrun.
  destruct Hrun as [|Hnone|files d p content0 w Hf Hq Hp
                    |files outbox d p content0 payload w Hf Ho Hq Hp].
  - destruct Hin.
  - cbn in Hin. destruct Hin as [Hev|[]]. discriminate Hev.
  - cbn in Hin. destruct Hin as [Hev|[]].
    unfold upload_of in Hev. injection Hev as <- <- <- <- <-.
    exists d, p. auto.
  - cbn in Hin. destruct Hin as [Hev|[Hev|[]]]; [|discriminate Hev].
    unfold upload_of in Hev. injection Hev as <- <- <- <- <-.
    exists d, p. auto.
Qed.

End Calls.
End SendCalls.

(** ** The Status handler past its check *)

Module StatusPaths.
Import Py Builtins FaxPlus FaxPlusStatusTool Request RequestFacts RunFacts
       StatusLife StatusFacts.

Section Paths.
Context {W : Type} (env : Env W).
Implicit Types (st : state tool W) (q : string) (d : list (string * value)).

Lemma try_lookup q d st outbox r w1 :
  json_loads env q = Return (VDict d) ->
  missing d "fax_id" = false ->
  outbox_api (self st) = Some outbox ->
  get_outbox_fax env outbox (account_id (self st)) (field d "fax_id") (world st)
    = (r, w1) ->
  _run_try env q st =
    (match r with
     | Return fax_status =>
         dumps_status_info env (status_info (field d "fax_id") fax_status)
     | Raise e => Raise e
     end,
     {| self := self st; world := w1; next_oid := next_oid st |},
     [GetOutboxFax outbox (account_id (self st)) (field d "fax_id")]).
Proof.
  intros Hq Hm Hc Hget. unfold missing in Hm.
  cbv [_run_try bind lift observe remote get].
  rewrite Hq, !py_get_field. cbv beta iota. rewrite Hm. cbv beta iota.
  rewrite (status_client_step_some _ Hc), (status_getattr_some _ _ _ Hc).
  cbn [self world next_oid]. rewrite Hget.
  destruct r as [fax_status|e]; [|reflexivity].
  destruct (dumps_status_info env (status_info (field d "fax_id") fax_status));
    reflexivity.
Qed.

Lemma status_run_of_raise q st e st' log :
  _run_try env q st = (Raise e, st', log) ->
  _run env q st =
    (Return (if is_JSONDecodeError e
             then "Error: Invalid JSON input. Please provide a valid JSON object."
             else "Error checking fax status: " ++ str_exn e),
     st', log).
Proof.
  intros H. unfold _run, try_except, _run_except. rewrite H.
  destruct (is_JSONDecodeError e); cbv [ret]; rewrite app_nil_r; reflexivity.
Qed.

Lemma status_run_of_return q st s st' log :
  _run_try env q st = (Return s, st', log) ->
  _run env q st = (Return s, st', log).
Proof. intros H. unfold _run, try_except. rewrite H. reflexivity. Qed.

End Paths.
End StatusPaths.

(** ** Base names and content types *)

Module PathFacts.
Import Py Builtins Paths.

Lemma rfind_from_last_index c s : forall i last,
  rfind_from c s i last =
    match last_index c s with
    | Some k => i + Z.of_nat k
    | None => last
    end.
Proof.
  induction s as [|a rest IH]; intros i last; cbn; [reflexivity|].
  rewrite IH. destruct (last_index c rest) as [k|].
  - lia.
  - destruct (Ascii.eqb a c); [lia|reflexivity].
Qed.

Lemma substring_all s : substring 0 (String.length s) s = s.
Proof. induction s as [|a rest IH]; cbn; [reflexivity|]. now rewrite IH. Qed.

(** What follows the last [c] holds no [c]. *)
Lemma last_index_after c s : forall k,
  last_index c s = Some k ->
  last_index c (substring (S k) (String.length s - S k) s) = None.
Proof.
  induction s as [|a rest IH]; intros k; cbn [last_index]; [discriminate|].
  destruct (last_index c rest) as [k'|] eqn:E.
  - intros [= <-]. cbn [String.length substring Nat.sub]. apply IH. reflexivity.
  - destruct (Ascii.eqb a c); [|discriminate].
    intros [= <-]. cbn [String.length substring Nat.sub].
    rewrite Nat.sub_0_r, substring_all. exact E.
Qed.

Lemma last_index_none_split c s :
  last_index c s = None -> forall a b, s <> a ++ String c b.
Proof.
  revert s. intros s Hs a. revert s Hs.
  induction a as [|x a IH]; intros s Hs b Heq; subst s; cbn in Hs.
  - destruct (last_index c b); [discriminate|].
    rewrite Ascii.eqb_refl in Hs. discriminate.
  - destruct (last_index c (a ++ String c b)) eqn:E; [discriminate|].
    exact (IH _ E b eq_refl).
Qed.

(** [os.path.basename] leaves no directory part. *)
Lemma basename_has_no_slash p a b : basename_str p <> a ++ "/" ++ b.
Proof.
  apply last_index_none_split.
  unfold basename_str, slice_from, rfind.
  rewrite rfind_from_last_index.
  destruct (last_index "/" p) as [k|] eqn:E.
  - replace (Z.to_nat (0 + Z.of_nat k + 1)) with (S k) by lia.
    apply last_index_after. exact E.
  - cbn. rewrite Nat.sub_0_r, substring_all. exact E.
Qed.

Lemma mime_type_is_known extension :
  In (FaxPlusTool._get_mime_type extension) content_types.
Proof.
  unfold FaxPlusTool._get_mime_type, FaxPlusTool.mime_types. cbn [table_get].
  repeat match goal with
         | |- context [(?k =? extension)%string] =>
             destruct (k =? extension)%string; [cbn; tauto|]
         end.
  cbn; tauto.
Qed.

End PathFacts.

(** ** The credentials of the calls *)

Module CredentialFacts.
Import Py Builtins FaxPlus Request Log Credentials.

Section Send.
Import FaxPlusTool SendLife SendFacts.
Context {W : Type} (env : Env W).
Implicit Types (st : state tool W) (q : string).


End Send.

Section Status.
Import FaxPlusStatusTool StatusLife StatusFacts.
Context {W : Type} (env : Env W).
Implicit Types (st : state tool W) (q : string).


End Status.

End CredentialFacts.

(** ** What the handlers do beyond their contract *)

Module Behaviour.
Import Py Builtins FaxPlus Request RequestFacts Log.

(** X1. A text that parses as JSON but not as an object - an array, a
    string, a number, true, false or null - is answered through the general
    clause of either handler: the failed [get] is reported as
    "'<type>' object has no attribute 'get'" behind the handler's prefix.  The
    state is returned as it was and no call is logged. *)
Theorem non_object_request {W} (env : Env W) q v
  (st : state FaxPlusTool.tool W) (st' : state FaxPlusStatusTool.tool W) :
  json_loads env q = Return v ->
  (forall d, v <> VDict d) ->
  FaxPlusTool._run env q st =
    (Return ("Error sending fax: '" ++ type_name v
               ++ "' object has no attribute 'get'"),
     st, [])
  /\ FaxPlusStatusTool._run env q st' =
    (Return ("Error checking fax status: '" ++ type_name v
               ++ "' object has no attribute 'get'"),
     st', []).
Proof.
  intros Hq Hv. split.
  - cbv [FaxPlusTool._run try_except FaxPlusTool._run_try
         FaxPlusTool._run_except bind lift ret].
    rewrite Hq, (py_get_not_dict _ _ Hv). reflexivity.
  - cbv [FaxPlusStatusTool._run try_except FaxPlusStatusTool._run_try
         FaxPlusStatusTool._run_except bind lift ret].
    rewrite Hq, (py_get_not_dict _ _ Hv). reflexivity.
Qed.

Lemma non_object_request_witness :
  let st := Mock.start Tests.send_tool Tests.disk_with_report in
  let st' := Mock.start Tests.status_tool Tests.disk_with_report in
  json_loads Tests.accepting "[]" = Return (VList [])
  /\ FaxPlusTool._run Tests.accepting "[]" st =
       (Return "Error sending fax: 'list' object has no attribute 'get'",
        st, [])
  /\ FaxPlusStatusTool._run Tests.accepting "[]" st' =
       (Return "Error checking fax status: 'list' object has no attribute 'get'",
        st', []).
Proof.
  intros st st'. split; [reflexivity|].
  apply (non_object_request Tests.accepting "[]" (v := VList []) st st' eq_refl).
  intros d H. discriminate H.
Defined.

(** X2. A Status request that parses as an object without a usable fax_id
    (the key absent, or bound to a falsy value) is answered with exactly
    "Error: Fax ID is required" before anything else happens: no client is
    built and the service is not asked. *)
Theorem status_missing_fax_id {W} (env : Env W) q d
  (st : state FaxPlusStatusTool.tool W) :
  json_loads env q = Return (VDict d) ->
  missing d "fax_id" = true ->
  FaxPlusStatusTool._run env q st = (Return "Error: Fax ID is required", st, []).
Proof.
  unfold missing. intros Hq Hm.
  cbv [FaxPlusStatusTool._run try_except FaxPlusStatusTool._run_try bind lift
       ret].
  rewrite Hq, !py_get_field. cbv beta iota. rewrite Hm. reflexivity.
Qed.

Lemma status_missing_fax_id_witness :
  let st := Mock.start Tests.status_tool Tests.disk_with_report in
  dict_lookup [] "fax_id" = None
  /\ FaxPlusStatusTool._run Tests.accepting "{}" st
     = (Return "Error: Fax ID is required", st, []).
Proof.
  intros st. split; [reflexivity|].
  exact (status_missing_fax_id Tests.accepting "{}" (d := []) st
           eq_refl eq_refl).
Defined.

(** X3. A JSON decode error raised anywhere in the [try] block of a handler
    is reported as if the request text had been malformed: whatever step
    raised it, the answer is "Error: Invalid JSON input. Please provide a
    valid JSON object.", with the state and the log of the point of failure.
    In particular, on a tool object that holds its client - the handler
    stores none, so the attribute was put there from outside - a decode
    error raised by the remote service is answered that way although the
    request parsed and passed every check and the call was made: by the
    upload of the Send handler, by the lookup of the Status handler. *)
Theorem service_decode_error_reported_as_invalid_input {W} (env : Env W) :
  (forall q (st : state FaxPlusTool.tool W) e st' log,
      FaxPlusTool._run_try env q st = (Raise e, st', log) ->
      is_JSONDecodeError e = true ->
      FaxPlusTool._run env q st =
        (Return "Error: Invalid JSON input. Please provide a valid JSON object.",
         st', log))
  /\ (forall q (st : state FaxPlusStatusTool.tool W) e st' log,
        FaxPlusStatusTool._run_try env q st = (Raise e, st', log) ->
        is_JSONDecodeError e = true ->
        FaxPlusStatusTool._run env q st =
          (Return "Error: Invalid JSON input. Please provide a valid JSON object.",
           st', log))
  /\ (forall q d (st : state FaxPlusTool.tool W) p content files e w1,
        json_loads env q = Return (VDict d) ->
        missing d "fax_number" = false ->
        missing d "subject" = false ->
        missing d "file_path" = false ->
        field d "file_path" = VStr p ->
        os_path_exists env (world st) (VStr p) = Return true ->
        open_read env (world st) (VStr p) = Return content ->
        FaxPlusTool.files_api (self st) = Some files ->
        let upload :=
          UploadFile files (FaxPlusTool.account_id (self st)) content
            (basename_str p)
            (FaxPlusTool._get_mime_type
               (lower (snd (splitext (basename_str p))))) in
        upload_file env files (FaxPlusTool.account_id (self st)) content
          (basename_str p)
          (FaxPlusTool._get_mime_type (lower (snd (splitext (basename_str p)))))
          (world st) = (Raise e, w1) ->
        is_JSONDecodeError e = true ->
        FaxPlusTool._run env q st =
          (Return "Error: Invalid JSON input. Please provide a valid JSON object.",
           {| self := self st; world := w1; next_oid := next_oid st |},
           [upload]))
  /\ (forall q d (st : state FaxPlusStatusTool.tool W) outbox e w1,
        json_loads env q = Return (VDict d) ->
        missing d "fax_id" = false ->
        FaxPlusStatusTool.outbox_api (self st) = Some outbox ->
        get_outbox_fax env outbox (FaxPlusStatusTool.account_id (self st))
          (field d "fax_id") (world st) = (Raise e, w1) ->
        is_JSONDecodeError e = true ->
        FaxPlusStatusTool._run env q st =
          (Return "Error: Invalid JSON input. Please provide a valid JSON object.",
           {| self := self st; world := w1; next_oid := next_oid st |},
           [GetOutboxFax outbox (FaxPlusStatusTool.account_id (self st))
              (field d "fax_id")])).
Proof.
  repeat match goal with |- _ /\ _ => split end.
  - intros q st e st' log Htry He.
    rewrite (SendPaths.run_of_raise env q st Htry), He. reflexivity.
  - intros q st e st' log Htry He.
    rewrite (StatusPaths.status_run_of_raise env q st Htry), He. reflexivity.
  - intros q d st p content files e w1 Hq Hn Hs Hf Hp Hx Hr Hfiles upload Hup He.
    rewrite (SendPaths.run_of_raise env q st
               (SendPaths.try_upload_raises env q st Hq Hn Hs Hf Hp Hx Hr
                  Hfiles Hup)).
    rewrite He. reflexivity.
  - intros q d st outbox e w1 Hq Hm Hc Hget He.
    rewrite (StatusPaths.status_run_of_raise env q st
               (StatusPaths.try_lookup env q st Hq Hm Hc Hget)).
    rewrite He. reflexivity.
Qed.

Lemma service_decode_error_reported_as_invalid_input_witness :
  let st := Tests.send_ready in
  let st' := Tests.status_ready in
  (json_loads MoreTests.garbled Tests.q_send = Return (VDict Tests.d_send)
   /\ FaxPlusTool.files_api (self st) = Some (ApiClient 0 "key")
   /\ fst (fst (FaxPlusTool._run MoreTests.garbled Tests.q_send st))
      = Return "Error: Invalid JSON input. Please provide a valid JSON object."
   /\ upload_clients (snd (FaxPlusTool._run MoreTests.garbled Tests.q_send st))
      = [ApiClient 0 "key"])
  /\ (json_loads MoreTests.garbled Tests.q_status = Return (VDict Tests.d_status)
      /\ FaxPlusStatusTool.outbox_api (self st') = Some (ApiClient 0 "key")
      /\ fst (fst (FaxPlusStatusTool._run MoreTests.garbled Tests.q_status st'))
         = Return "Error: Invalid JSON input. Please provide a valid JSON object."
      /\ outbox_clients
           (snd (FaxPlusStatusTool._run MoreTests.garbled Tests.q_status st'))
         = [ApiClient 0 "key"]).
Proof.
  intros st st'.
  destruct (service_decode_error_reported_as_invalid_input MoreTests.garbled)
    as (_ & _ & Hsend & Hstatus).
  split.
  - split; [reflexivity|]. split; [reflexivity|].
    rewrite (Hsend Tests.q_send Tests.d_send st "/tmp/Report.PDF"
               [Byte.x25; Byte.x50; Byte.x44; Byte.x46] (ApiClient 0 "key")
               MoreTests.decode_error Tests.disk_with_report
               eq_refl eq_refl eq_refl eq_refl eq_refl eq_refl eq_refl eq_refl
               eq_refl eq_refl).
    split; reflexivity.
  - split; [reflexivity|]. split; [reflexivity|].
    rewrite (Hstatus Tests.q_status Tests.d_status st' (ApiClient 0 "key")
               MoreTests.decode_error Tests.disk_with_report
               eq_refl eq_refl eq_refl eq_refl eq_refl).
    split; reflexivity.
Defined.



(** X5. The client step comes before the file is opened.  Take a request
    that passes the checks and whose path exists but cannot be read (a
    directory, a file without read permission).  On a tool object without
    clients - every object the class constructs - the answer is the refusal
    of [self.files_api = ...], not the read failure: the file is never
    opened.  On an object that holds its files client the answer is
    "Error sending fax: " followed by the description of the read failure,
    the state is returned as it was and no call is made. *)
Theorem client_step_precedes_the_read {W} (env : Env W) q d
  (st : state FaxPlusTool.tool W) e :
  json_loads env q = Return (VDict d) ->
  missing d "fax_number" = false ->
  missing d "subject" = false ->
  missing d "file_path" = false ->
  os_path_exists env (world st) (field d "file_path") = Return true ->
  open_read env (world st) (field d "file_path") = Raise e ->
  is_JSONDecodeError e = false ->
  (FaxPlusTool.files_api (self st) = None ->
   FaxPlusTool._run env q st =
     (Return ("Error sending fax: " ++ DQ ++ "FaxPlusTool" ++ DQ
                ++ " object has no field " ++ DQ ++ "files_api" ++ DQ),
      {| self := self st; world := world st; next_oid := S (next_oid st) |},
      [InitClient]))
  /\ (forall files,
        FaxPlusTool.files_api (self st) = Some files ->
        FaxPlusTool._run env q st =
          (Return ("Error sending fax: " ++ str_exn e), st, [])).
Proof.
  intros Hq Hn Hs Hf Hx Hr He. split.
  - intros Hnone.
    exact (SendFacts.send_run_init_fails env q st Hq Hn Hs Hf Hx Hnone).
  - intros files Hfiles.
    rewrite (SendPaths.run_of_raise env q st
               (SendPaths.try_read_raises env q st Hq Hn Hs Hf Hx Hfiles Hr)).
    rewrite He. reflexivity.
Qed.

Lemma client_step_precedes_the_read_witness :
  let st := Mock.start Tests.send_tool Tests.disk_with_report in
  let st' := Tests.send_ready in
  (FaxPlusTool.files_api (self st) = None
   /\ FaxPlusTool._run MoreTests.unreadable Tests.q_send st
      = (Return ("Error sending fax: " ++ DQ ++ "FaxPlusTool" ++ DQ
                   ++ " object has no field " ++ DQ ++ "files_api" ++ DQ),
         {| self := Tests.send_tool; world := Tests.disk_with_report;
            next_oid := 1 |},
         [InitClient]))
  /\ (FaxPlusTool.files_api (self st') = Some (ApiClient 0 "key")
      /\ FaxPlusTool._run MoreTests.unreadable Tests.q_send st'
         = (Return
              "Error sending fax: [Errno 21] Is a directory: '/tmp/Report.PDF'",
            st', [])).
Proof.
  intros st st'. split.
  - split; [reflexivity|].
    exact (proj1 (client_step_precedes_the_read MoreTests.unreadable
                    Tests.q_send (d := Tests.d_send) st
                    (e := Exn (OtherError "IsADirectoryError")
                            "[Errno 21] Is a directory: '/tmp/Report.PDF'")
                    eq_refl eq_refl eq_refl eq_refl eq_refl eq_refl eq_refl)
             eq_refl).
  - split; [reflexivity|].
    exact (proj2 (client_step_precedes_the_read MoreTests.unreadable
                    Tests.q_send (d := Tests.d_send) st'
                    (e := Exn (OtherError "IsADirectoryError")
                            "[Errno 21] Is a directory: '/tmp/Report.PDF'")
                    eq_refl eq_refl eq_refl eq_refl eq_refl eq_refl eq_refl)
             (ApiClient 0 "key") eq_refl).
Defined.

(** X6. A file_path that is not a string never reaches the service.  Whatever
    [os.path.exists] and [open] make of it (an integer is a file descriptor to
    them), [os.path.basename] refuses it, so no run on such a request logs an
    upload or a submission. *)
Theorem non_string_path_never_uploaded {W} (env : Env W) q d
  (st : state FaxPlusTool.tool W) r st' log :
  json_loads env q = Return (VDict d) ->
  (forall p, field d "file_path" <> VStr p) ->
  FaxPlusTool._run env q st = (r, st', log) ->
  upload_clients log = [] /\ outbox_clients log = [].
Proof.
  intros Hq Hp Hrun. apply SendFacts.send_run_has_shape in Hrun.
  destruct Hrun as [|Hnone|files d' p content w Hf Hq' Hp'
                    |files outbox d' p content payload w Hf Ho Hq' Hp'].
  - split; reflexivity.
  - split; reflexivity.
  - rewrite Hq in Hq'. injection Hq' as <-. exfalso. exact (Hp p Hp').
  - rewrite Hq in Hq'. injection Hq' as <-. exfalso. exact (Hp p Hp').
Qed.

Lemma non_string_path_never_uploaded_witness :
  let st := Tests.send_ready in
  let run := FaxPlusTool._run MoreTests.descriptor_open MoreTests.q_fd_path st in
  field MoreTests.d_fd_path "file_path" = VInt 7
  /\ fst (fst run)
     = Return "Error sending fax: expected str, bytes or os.PathLike object, not int"
  /\ upload_clients (snd run) = [] /\ outbox_clients (snd run) = [].
Proof.
  intros st run. split; [reflexivity|]. split; [reflexivity|].
  apply (non_string_path_never_uploaded MoreTests.descriptor_open
           MoreTests.q_fd_path
           (d := MoreTests.d_fd_path) st
           (r := fst (fst run)) (st' := snd (fst run)) (log := snd run)
           eq_refl).
  - intros p H. discriminate H.
  - reflexivity.
Defined.

(** X7. Every submission found in the log of a Send run was composed from
    the request and from the upload of the same run: its recipient, subject
    and comment are the request's fax_number, subject and comment (the empty
    string when the request has no comment), its file id is the id the upload
    returned, its direction is OUTBOUND and its category GENERAL; the upload
    precedes it in the same log and both carry the tool's account id. *)
Theorem submission_is_composed_from_request_and_upload {W} (env : Env W) q
  (st : state FaxPlusTool.tool W) r st' log c account payload :
  FaxPlusTool._run env q st = (r, st', log) ->
  In (SendFax c account payload) log ->
  exists d p content files up w1,
    json_loads env q = Return (VDict d)
    /\ field d "file_path" = VStr p
    /\ account = FaxPlusTool.account_id (self st)
    /\ upload_file env files account content (basename_str p)
         (FaxPlusTool._get_mime_type (lower (snd (splitext (basename_str p)))))
         (world st) = (Return up, w1)
    /\ In (UploadFile files account content (basename_str p)
             (FaxPlusTool._get_mime_type
                (lower (snd (splitext (basename_str p)))))) log
    /\ payload =
         {| fax := {| to := field d "fax_number"; subject := field d "subject";
                      comment := comment_of d; file_id := uploaded_id up;
                      direction := OUTBOUND; category := GENERAL |} |}
    /\ (dict_lookup d "comment" = None -> comment (fax payload) = VStr "").
Proof.
  intros Hrun Hin.
  destruct (@SendCalls.run_submission W env q st r st' log c account payload
              Hrun Hin)
    as (d & p & content & files & up & w1 & Hq & Hp & Ha & _ & Hup & Hu & Hpay).
  exists d, p, content, files, up, w1.
  repeat match goal with |- _ /\ _ => split end; auto.
  intros Hnone. rewrite Hpay. cbn. unfold comment_of. rewrite Hnone.
  reflexivity.
Qed.

Lemma submission_is_composed_from_request_and_upload_witness :
  let st := Tests.send_ready in
  let payload :=
    {| fax := {| to := VStr "+14155552671"; subject := VStr "Hello";
                 comment := VStr ""; file_id := "file-1";
                 direction := OUTBOUND; category := GENERAL |} |} in
  In (SendFax (ApiClient 1 "key") "acct" payload)
     (snd (FaxPlusTool._run Tests.accepting Tests.q_send st))
  /\ exists d up,
       json_loads Tests.accepting Tests.q_send = Return (VDict d)
       /\ payload =
            {| fax := {| to := field d "fax_number";
                         subject := field d "subject";
                         comment := comment_of d; file_id := uploaded_id up;
                         direction := OUTBOUND; category := GENERAL |} |}.
Proof.
  intros st payload.
  assert (Hin : In (SendFax (ApiClient 1 "key") "acct" payload)
                  (snd (FaxPlusTool._run Tests.accepting Tests.q_send st))).
  { right. left. reflexivity. }
  split; [exact Hin|].
  destruct (@submission_is_composed_from_request_and_upload _ Tests.accepting
              Tests.q_send st
              (fst (fst (FaxPlusTool._run Tests.accepting Tests.q_send st)))
              (snd (fst (FaxPlusTool._run Tests.accepting Tests.q_send st)))
              (snd (FaxPlusTool._run Tests.accepting Tests.q_send st))
              (ApiClient 1 "key") "acct" payload eq_refl Hin)
    as (d & p & content & files & up & w1 & Hq & _ & _ & _ & _ & Hpay & _).
  exists d, up. split; [exact Hq|exact Hpay].
Defined.



(** X9. The Status handler keeps no cache.  On a tool object that holds
    its client - the handler stores none, so the attribute was put there from
    outside - the same request made twice asks the service twice; when the
    service gives the same record both times and is left unchanged by the
    lookup, both answers are the same text: the dump of the six entries, or,
    when an attribute of the record cannot be written as JSON, the report of
    that failure.  The tool object is left as it was. *)
Theorem status_is_not_cached {W} (env : Env W) q d
  (st : state FaxPlusStatusTool.tool W) outbox fax_status :
  json_loads env q = Return (VDict d) ->
  missing d "fax_id" = false ->
  FaxPlusStatusTool.outbox_api (self st) = Some outbox ->
  get_outbox_fax env outbox (FaxPlusStatusTool.account_id (self st))
    (field d "fax_id") (world st) = (Return fax_status, world st) ->
  let answer :=
    Return
      match FaxPlusStatusTool.dumps_status_info env
              (FaxPlusStatusTool.status_info (field d "fax_id") fax_status) with
      | Return text => text
      | Raise e => "Error checking fax status: " ++ str_exn e
      end in
  let lookup :=
    GetOutboxFax outbox (FaxPlusStatusTool.account_id (self st))
      (field d "fax_id") in
  StatusLife.invoke_all env [q; q] st = ([answer; answer], st, [lookup; lookup]).
Proof.
  intros Hq Hm Hc Hget answer lookup.
  assert (Hst : {| self := self st; world := world st; next_oid := next_oid st |}
                = st) by (destruct st; reflexivity).
  pose proof (StatusFacts.status_run_lookup env q st Hq Hm Hc Hget) as Hrun.
  rewrite Hst in Hrun.
  cbn [StatusLife.invoke_all]. rewrite Hrun, Hrun. reflexivity.
Qed.

Lemma status_is_not_cached_witness :
  let st := Tests.status_ready in
  let run := StatusLife.invoke_all Tests.accepting [Tests.q_status; Tests.q_status] st in
  let run' := StatusLife.invoke_all MoreTests.dated [Tests.q_status; Tests.q_status] st in
  (outbox_clients (snd run) = [ApiClient 0 "key"; ApiClient 0 "key"]
   /\ exists answer, fst (fst run) = [answer; answer])
  /\ fst (fst run')
     = [Return "Error checking fax status: Object of type datetime is not JSON serializable";
        Return "Error checking fax status: Object of type datetime is not JSON serializable"].
Proof.
  intros st run run'. split.
  - unfold run.
    rewrite (status_is_not_cached Tests.accepting Tests.q_status
               (d := Tests.d_status) st (outbox := ApiClient 0 "key")
               (fax_status := Tests.a_record)
               eq_refl eq_refl eq_refl eq_refl).
    split; [reflexivity|]. eexists. reflexivity.
  - unfold run'.
    rewrite (status_is_not_cached MoreTests.dated Tests.q_status
               (d := Tests.d_status) st (outbox := ApiClient 0 "key")
               (fax_status := Tests.a_dated_record)
               eq_refl eq_refl eq_refl eq_refl).
    reflexivity.
Defined.

(** X10. The Send handler is not idempotent.  On a tool object that holds
    its clients - the handler stores none, so the attributes were put there
    from outside - the same request made twice, with the service accepting
    each time, uploads the file twice and submits two faxes: the log holds
    two uploads and two submissions through the same two clients, and each
    answer names the id of its own submission. *)
Theorem send_twice_sends_two_faxes {W} (env : Env W) q d
  (st : state FaxPlusTool.tool W) p files outbox
  content1 up1 w1 fr1 w2 content2 up2 w3 fr2 w4 :
  json_loads env q = Return (VDict d) ->
  missing d "fax_number" = false ->
  missing d "subject" = false ->
  missing d "file_path" = false ->
  field d "file_path" = VStr p ->
  FaxPlusTool.files_api (self st) = Some files ->
  FaxPlusTool.outbox_api (self st) = Some outbox ->
  let account := FaxPlusTool.account_id (self st) in
  let file_name := basename_str p in
  let mime_type :=
    FaxPlusTool._get_mime_type (lower (snd (splitext file_name))) in
  let payload up :=
    {| fax := {| to := field d "fax_number"; subject := field d "subject";
                 comment := comment_of d; file_id := uploaded_id up;
                 direction := OUTBOUND; category := GENERAL |} |} in
  os_path_exists env (world st) (VStr p) = Return true ->
  open_read env (world st) (VStr p) = Return content1 ->
  upload_file env files account content1 file_name mime_type (world st)
    = (Return up1, w1) ->
  send_fax env outbox account (payload up1) w1 = (Return fr1, w2) ->
  os_path_exists env w2 (VStr p) = Return true ->
  open_read env w2 (VStr p) = Return content2 ->
  upload_file env files account content2 file_name mime_type w2
    = (Return up2, w3) ->
  send_fax env outbox account (payload up2) w3 = (Return fr2, w4) ->
  SendLife.invoke_all env [q; q] st =
    ([Return ("Fax successfully queued. Fax ID: " ++ fax_result_id fr1);
      Return ("Fax successfully queued. Fax ID: " ++ fax_result_id fr2)],
     {| self := self st; world := w4; next_oid := next_oid st |},
     [UploadFile files account content1 file_name mime_type;
      SendFax outbox account (payload up1);
      UploadFile files account content2 file_name mime_type;
      SendFax outbox account (payload up2)]).
Proof.
  intros Hq Hn Hs Hf Hp Hfiles Houtbox account file_name mime_type payload.
  intros Hx1 Hr1 Hup1 Hsend1 Hx2 Hr2 Hup2 Hsend2.
  set (st1 := {| self := self st; world := w2; next_oid := next_oid st |}).
  assert (Hrun1 := SendPaths.try_submit_returns env q st Hq Hn Hs Hf Hp Hx1 Hr1
                     Hfiles Houtbox Hup1 Hsend1).
  assert (Hrun2 := SendPaths.try_submit_returns env q st1 Hq Hn Hs Hf Hp Hx2 Hr2
                     Hfiles Houtbox Hup2 Hsend2).
  cbn [SendLife.invoke_all]. rewrite Hrun1. fold st1. rewrite Hrun2.
  reflexivity.
Qed.

Lemma send_twice_sends_two_faxes_witness :
  let st := Tests.send_ready in
  let run := SendLife.invoke_all Tests.accepting [Tests.q_send; Tests.q_send] st in
  FaxPlusTool.files_api (self st) = Some (ApiClient 0 "key")
  /\ upload_clients (snd run) = [ApiClient 0 "key"; ApiClient 0 "key"]
  /\ outbox_clients (snd run) = [ApiClient 1 "key"; ApiClient 1 "key"]
  /\ init_count (snd run) = 0%nat.
Proof.
  intros st run. split; [reflexivity|]. unfold run.
  rewrite (send_twice_sends_two_faxes Tests.accepting Tests.q_send
             (d := Tests.d_send) st (p := "/tmp/Report.PDF")
             (files := ApiClient 0 "key") (outbox := ApiClient 1 "key")
             (content1 := [Byte.x25; Byte.x50; Byte.x44; Byte.x46])
             (up1 := {| uploaded_id := "file-1" |})
             (w1 := Tests.disk_with_report)
             (fr1 := {| fax_result_id := "fax-9" |})
             (w2 := Tests.disk_with_report)
             (content2 := [Byte.x25; Byte.x50; Byte.x44; Byte.x46])
             (up2 := {| uploaded_id := "file-1" |})
             (w3 := Tests.disk_with_report)
             (fr2 := {| fax_result_id := "fax-9" |})
             (w4 := Tests.disk_with_report)
             eq_refl eq_refl eq_refl eq_refl eq_refl eq_refl eq_refl
             eq_refl eq_refl eq_refl eq_refl eq_refl eq_refl eq_refl eq_refl).
  repeat split.
Defined.

(** X11. What an upload never carries: the file name passed to the service
    has no directory part (it holds no "/"), and the content type is one of
    the eight the MIME table can give - the seven it lists or
    application/octet-stream. *)
Theorem upload_name_and_type {W} (env : Env W) q
  (st : state FaxPlusTool.tool W) r st' log c account content fname mime :
  FaxPlusTool._run env q st = (r, st', log) ->
  In (UploadFile c account content fname mime) log ->
  (forall a b, fname <> a ++ "/" ++ b)
  /\ In mime Paths.content_types.
Proof.
  intros Hrun Hin.
  destruct (SendCalls.run_upload env q st _ _ _ _ _ Hrun Hin)
    as (d & p & _ & _ & _ & Hev).
  unfold SendLife.upload_of in Hev. injection Hev as _ -> ->. split.
  - intros a b. apply PathFacts.basename_has_no_slash.
  - apply PathFacts.mime_type_is_known.
Qed.

Lemma upload_name_and_type_witness :
  let st := Tests.send_ready in
  let upload :=
    UploadFile (ApiClient 0 "key") "acct"
      [Byte.x25; Byte.x50; Byte.x44; Byte.x46] "Report.PDF" "application/pdf" in
  In upload (snd (FaxPlusTool._run Tests.accepting Tests.q_send st))
  /\ (forall a b, "Report.PDF" <> a ++ "/" ++ b)
  /\ In "application/pdf" Paths.content_types.
Proof.
  intros st upload.
  assert (Hin : In upload (snd (FaxPlusTool._run Tests.accepting Tests.q_send st))).
  { left. reflexivity. }
  split; [exact Hin|].
  exact (@upload_name_and_type _ Tests.accepting Tests.q_send st
           (fst (fst (FaxPlusTool._run Tests.accepting Tests.q_send st)))
           (snd (fst (FaxPlusTool._run Tests.accepting Tests.q_send st)))
           (snd (FaxPlusTool._run Tests.accepting Tests.q_send st))
           (ApiClient 0 "key") "acct" [Byte.x25; Byte.x50; Byte.x44; Byte.x46]
           "Report.PDF" "application/pdf" eq_refl Hin).
Defined.

End Behaviour.

(** * The workflow example over the handlers *)

(** ** The [str] methods *)

Module StrFacts.
Import Py Builtins StrMethods.

Lemma append_empty_r s : s ++ "" = s.
Proof. induction s as [|a r IH]; cbn; [reflexivity|]. now rewrite IH. Qed.

Lemma append_assoc s1 s2 s3 : (s1 ++ s2) ++ s3 = s1 ++ (s2 ++ s3).
Proof. induction s1 as [|a r IH]; cbn; [reflexivity|]. now rewrite IH. Qed.

Lemma contains_cons sep c s :
  contains sep (String c s) = false ->
  prefix sep (String c s) = false /\ contains sep s = false.
Proof. cbn [contains]. apply orb_false_elim. Qed.

(** Without a separator in it, a string is one piece. *)
Lemma split_go_one_piece sep s : forall cur,
  contains sep s = false -> split_go sep 0 s cur = [cur ++ s].
Proof.
  induction s as [|c rest IH]; intros cur Hno.
  - cbn. now rewrite append_empty_r.
  - apply contains_cons in Hno as [Hp Hrest].
    cbn [split_go]. rewrite Hp, (IH _ Hrest), append_assoc. reflexivity.
Qed.

Lemma split_go_not_empty sep s : forall k cur, split_go sep k s cur <> [].
Proof.
  induction s as [|c rest IH]; intros k cur; cbn [split_go]; [discriminate|].
  destruct k; [|apply IH].
  destruct (prefix sep (String c rest)); [discriminate|apply IH].
Qed.

(** With a separator in it, a string has a second piece: the index 1 that
    follows the [in] test is in range. *)
Lemma split_second_piece sep s : forall cur,
  contains sep s = true -> s <> "" ->
  exists x, item (split_go sep 0 s cur) 1 = Return x.
Proof.
  induction s as [|c rest IH]; intros cur Hin Hs; [contradiction|].
  cbn [split_go]. destruct (prefix sep (String c rest)) eqn:Hp.
  - destruct (split_go sep (String.length sep - 1) rest "") as [|x l] eqn:E.
    + exfalso. exact (split_go_not_empty _ _ _ _ E).
    + exists x. reflexivity.
  - cbn [contains] in Hin. rewrite Hp in Hin. cbn in Hin.
    destruct rest as [|c' rest'].
    + cbn in Hin. destruct sep; [discriminate Hp|discriminate Hin].
    + apply IH; [exact Hin|discriminate].
Qed.

Lemma split_once_second_piece sep s : forall cur,
  contains sep s = true -> s <> "" ->
  exists x, item (split_once_go sep s cur) 1 = Return x.
Proof.
  induction s as [|c rest IH]; intros cur Hin Hs; [contradiction|].
  cbn [split_once_go]. destruct (prefix sep (String c rest)) eqn:Hp.
  - eexists. reflexivity.
  - cbn [contains] in Hin. rewrite Hp in Hin. cbn in Hin.
    destruct rest as [|c' rest'].
    + cbn in Hin. destruct sep; [discriminate Hp|discriminate Hin].
    + apply IH; [exact Hin|discriminate].
Qed.

(** *** [strip] *)

Lemma lstrip_starts_clean s : starts_clean (lstrip s).
Proof.
  induction s as [|c rest IH]; cbn; [exact I|].
  destruct (is_space c) eqn:E; [exact IH|exact E].
Qed.

Lemma rstrip_starts_clean s : starts_clean s -> starts_clean (rstrip s).
Proof.
  destruct s as [|c rest]; cbn [rstrip starts_clean]; [auto|].
  intros Hc. destruct (rstrip rest); [rewrite Hc|]; exact Hc.
Qed.

Lemma lstrip_of_clean s : starts_clean s -> lstrip s = s.
Proof. destruct s as [|c rest]; cbn; [auto|]. now intros ->. Qed.

Lemma rstrip_idempotent s : rstrip (rstrip s) = rstrip s.
Proof.
  induction s as [|c rest IH]; [reflexivity|].
  cbn [rstrip]. destruct (rstrip rest) as [|c' r'] eqn:E.
  - destruct (is_space c) eqn:Hc; [reflexivity|]. cbn. now rewrite Hc.
  - cbn [rstrip]. cbn [rstrip] in IH. rewrite IH. reflexivity.
Qed.

(** A stripped string has nothing left to strip. *)
Lemma strip_idempotent s : strip (strip s) = strip s.
Proof.
  unfold strip.
  rewrite (lstrip_of_clean _ (rstrip_starts_clean _ (lstrip_starts_clean s))).
  apply rstrip_idempotent.
Qed.

Lemma strip_leading_space s : strip (String " " s) = strip s.
Proof. reflexivity. Qed.

End StrFacts.

(** ** The node and edge functions *)

Module WorkflowFacts.
Import Py Builtins FaxPlus Request RequestFacts StrMethods StrFacts Workflow.

(** X12. The fax id survives the trip from the Send handler to the workflow.
    Applied to the handler's success message for an id that does not itself
    contain "Fax ID:", [process_fax_result] stores the id, stripped of
    surrounding white space, in the state and appends the message; an id
    without surrounding white space comes back unchanged, and when it is not
    empty the workflow goes on to the status check. *)
Theorem fax_id_round_trip (state : State) (id : string) :
  contains "Fax ID:" id = false ->
  let result := "Fax successfully queued. Fax ID: " ++ id in
  let state' :=
    with_fax_id state (messages state ++ [AIMessage result])%list (strip id) in
  process_fax_result state result = Return state'
  /\ (strip id = id -> fax_id state' = id)
  /\ (strip id <> "" -> has_fax_id state' = "check_status").
Proof.
  intros Hno result state'.
  assert (Hno' : contains "Fax ID:" (String " " id) = false).
  { cbn [contains]. rewrite Hno. reflexivity. }
  split; [|split].
  - unfold process_fax_result, result, split.
    cbn -[strip contains split_go].
    replace (contains "Fax ID:"
               ("Fax successfully queued. Fax ID: " ++ id)) with true
      by reflexivity.
    cbn -[strip contains]. rewrite (split_go_one_piece _ _ _ Hno).
    cbn -[strip]. rewrite strip_leading_space. reflexivity.
  - intros Hid. cbn. exact Hid.
  - intros Hne. unfold has_fax_id. cbn [state' fax_id with_fax_id].
    destruct (String.eqb_spec (strip id) ""); [contradiction|reflexivity].
Qed.

Lemma fax_id_round_trip_witness :
  let st := Tests.send_ready in
  fst (fst (FaxPlusTool._run Tests.accepting Tests.q_send st))
    = Return ("Fax successfully queued. Fax ID: " ++ "fax-9")
  /\ exists state',
       process_fax_result MoreTests.a_state
         ("Fax successfully queued. Fax ID: " ++ "fax-9") = Return state'
       /\ fax_id state' = "fax-9"
       /\ has_fax_id state' = "check_status".
Proof.
  intros st. split; [reflexivity|].
  destruct (fax_id_round_trip MoreTests.a_state "fax-9" eq_refl)
    as (Hrun & Hid & Hcheck).
  eexists. split; [exact Hrun|]. split.
  - exact (Hid eq_refl).
  - apply Hcheck. discriminate.
Defined.

(** X13. A request the Send handler turns down ends the workflow.  When
    the text is not JSON, or an object without one of the required fields,
    the handler's answer holds no "Fax ID:"; [process_fax_result] then raises
    nothing, appends the answer to the messages, leaves the fax id empty, and
    [has_fax_id] routes to the end: no status check follows. *)
Theorem rejected_request_ends_workflow {W} (env : Env W) q
  (st : state FaxPlusTool.tool W) (state : State) :
  (exists e, json_loads env q = Raise e /\ is_JSONDecodeError e = true)
  \/ (exists d, json_loads env q = Return (VDict d)
                /\ missing d "fax_number" || missing d "subject"
                   || missing d "file_path" = true) ->
  exists result,
    FaxPlusTool._run env q st = (Return result, st, [])
    /\ process_fax_result state result =
         Return (with_fax_id state (messages state ++ [AIMessage result])%list "")
    /\ has_fax_id
         (with_fax_id state (messages state ++ [AIMessage result])%list "")
       = "end".
Proof.
  intros [(e & Hq & He) | (d & Hq & Hm)].
  - eexists. split; [exact (SendFacts.send_run_invalid_json env q st Hq He)|].
    split; reflexivity.
  - eexists. split; [exact (SendFacts.run_required_error env q st Hq Hm)|].
    destruct (missing d "fax_number"); [split; reflexivity|].
    destruct (missing d "subject"); split; reflexivity.
Qed.

Lemma rejected_request_ends_workflow_witness :
  let st := Mock.start Tests.send_tool Tests.disk_with_report in
  dict_lookup Tests.d_no_subject "subject" = None
  /\ exists result,
       FaxPlusTool._run Tests.accepting Tests.q_no_subject st
         = (Return result, st, [])
       /\ process_fax_result MoreTests.a_state result =
            Return (with_fax_id MoreTests.a_state
                      (messages MoreTests.a_state ++ [AIMessage result])%list "").
Proof.
  intros st. split; [reflexivity|].
  destruct (rejected_request_ends_workflow Tests.accepting Tests.q_no_subject st
              MoreTests.a_state
              (or_intror (ex_intro _ Tests.d_no_subject (conj eq_refl eq_refl))))
    as (result & Hrun & Hproc & _).
  exists result. split; [exact Hrun|exact Hproc].
Defined.

(** X14. The guard of the status check agrees with the check of the Status
    handler.  Let the handler parse the request that [prepare_status_check]
    writes back to the dict it was written from.  When [has_fax_id] routes
    to the end, the request would have been answered "Error: Fax ID is
    required" without a call.  When it routes to the status check, the
    handler passes its fax_id check and comes to the client step: on a tool
    object without a client - every object the class constructs - it answers
    the refusal of [self.outbox_api = ...] and asks nothing; on an object
    that holds a client it asks the service once, for exactly the state's
    fax id.  The invocation names the tool by the Status tool's own name. *)
Theorem status_guard_agrees_with_handler {W} (env : Env W)
  (st : state FaxPlusStatusTool.tool W) (state : State) :
  let invocation := prepare_status_check (float_repr env) state in
  json_loads env (tool_input invocation) = Return (status_data state) ->
  tool invocation = FaxPlusStatusTool.name
  /\ (has_fax_id state = "check_status" ->
      (FaxPlusStatusTool.outbox_api (self st) = None ->
       FaxPlusStatusTool._run env (tool_input invocation) st =
         (Return ("Error checking fax status: " ++ DQ ++ "FaxPlusStatusTool"
                    ++ DQ ++ " object has no field " ++ DQ ++ "outbox_api"
                    ++ DQ),
          {| self := self st; world := world st; next_oid := S (next_oid st) |},
          [InitClient]))
      /\ (forall outbox,
            FaxPlusStatusTool.outbox_api (self st) = Some outbox ->
            snd (FaxPlusStatusTool._run env (tool_input invocation) st)
            = [GetOutboxFax outbox (FaxPlusStatusTool.account_id (self st))
                 (VStr (fax_id state))]))
  /\ (has_fax_id state = "end" ->
      FaxPlusStatusTool._run env (tool_input invocation) st
      = (Return "Error: Fax ID is required", st, [])).
Proof.
  intros invocation Hq. split; [reflexivity|].
  unfold has_fax_id. split; intros Hroute.
  - assert (Hm : missing [("fax_id", VStr (fax_id state))] "fax_id" = false).
    { unfold missing, field. cbn.
      destruct (fax_id state =? "")%string; [discriminate Hroute|reflexivity]. }
    split.
    + intros Hnone.
      exact (StatusFacts.status_run_init_fails env _ st Hq Hm Hnone).
    + intros outbox Hc.
      destruct (get_outbox_fax env outbox
                  (FaxPlusStatusTool.account_id (self st))
                  (field [("fax_id", VStr (fax_id state))] "fax_id") (world st))
        as [r w1] eqn:Hget.
      destruct r as [fax_status|e].
      * rewrite (StatusFacts.status_run_lookup env _ st Hq Hm Hc Hget).
        reflexivity.
      * rewrite (StatusFacts.status_run_lookup_raises env _ st Hq Hm Hc Hget).
        reflexivity.
  - apply StatusFacts.run_fax_id_missing with [("fax_id", VStr (fax_id state))];
      [exact Hq|].
    unfold missing, field. cbn.
    destruct (fax_id state =? "")%string; [reflexivity|discriminate Hroute].
Qed.

Lemma status_guard_agrees_with_handler_witness :
  let st := Mock.start Tests.status_tool Tests.disk_with_report in
  let st' := Tests.status_ready in
  let invocation := prepare_status_check MoreTests.no_float MoreTests.a_state in
  has_fax_id MoreTests.a_state = "check_status"
  /\ snd (FaxPlusStatusTool._run MoreTests.accepting (tool_input invocation) st)
     = [InitClient]
  /\ snd (FaxPlusStatusTool._run MoreTests.accepting (tool_input invocation) st')
     = [GetOutboxFax (ApiClient 0 "key") "acct" (VStr "fax-9")].
Proof.
  intros st st' invocation. split; [reflexivity|]. split.
  - destruct (status_guard_agrees_with_handler MoreTests.accepting st
                (state := MoreTests.a_state) eq_refl) as (_ & Hcheck & _).
    exact (f_equal snd (proj1 (Hcheck eq_refl) eq_refl)).
  - destruct (status_guard_agrees_with_handler MoreTests.accepting st'
                (state := MoreTests.a_state) eq_refl) as (_ & Hcheck & _).
    exact (proj2 (Hcheck eq_refl) (ApiClient 0 "key") eq_refl).
Defined.

(** X15. The request the workflow writes for the Send handler.  Let the
    handler parse the text of [prepare_fax_data] back to the dict it was
    written from.  The invocation names the tool by the Send tool's own name.
    An empty recipient_fax, subject or document_path in the state is turned
    down with the message of the first empty one.  Every submission the run
    makes is addressed to the state's recipient_fax with the state's subject
    and the comment "Automated fax of <document_type> document", and every
    upload is named after the base name of the state's document_path. *)
Theorem workflow_send_request {W} (env : Env W)
  (st : state FaxPlusTool.tool W) (state : State) :
  let invocation := prepare_fax_data (float_repr env) state in
  json_loads env (tool_input invocation) = Return (fax_data state) ->
  tool invocation = FaxPlusTool.name
  /\ ((recipient_fax state =? "") || (subject state =? "")
      || (document_path state =? "") = true ->
      FaxPlusTool._run env (tool_input invocation) st =
        (Return (if (recipient_fax state =? "")%string
                 then "Error: Recipient fax number is required"
                 else if (subject state =? "")%string
                      then "Error: Subject is required"
                      else "Error: File path is required"),
         st, []))%string
  /\ (forall r st' log,
        FaxPlusTool._run env (tool_input invocation) st = (r, st', log) ->
        (forall c account payload,
            In (SendFax c account payload) log ->
            FaxPlus.to (fax payload) = VStr (recipient_fax state)
            /\ FaxPlus.subject (fax payload) = VStr (subject state)
            /\ FaxPlus.comment (fax payload)
               = VStr ("Automated fax of " ++ document_type state ++ " document"))
        /\ (forall c account content fname mime,
              In (UploadFile c account content fname mime) log ->
              fname = basename_str (document_path state))).
Proof.
  intros invocation Hq. split; [reflexivity|].
  assert (Hmiss : forall key s,
             dict_lookup (match fax_data state with VDict d => d | _ => [] end)
               key = Some (VStr s) ->
             missing (match fax_data state with VDict d => d | _ => [] end) key
             = (s =? "")%string).
  { intros key s Hl. unfold missing, field. rewrite Hl. cbn.
    destruct (s =? "")%string; reflexivity. }
  cbn [fax_data] in Hmiss.
  split.
  - intros Hempty.
    pose proof (SendFacts.run_required_error env (tool_input invocation) st Hq)
      as Hrun.
    rewrite (Hmiss "fax_number" _ eq_refl), (Hmiss "subject" _ eq_refl),
      (Hmiss "file_path" _ eq_refl) in Hrun.
    exact (Hrun Hempty).
  - intros r st' log Hrun. split.
    + intros c account payload Hin.
      destruct (@SendCalls.run_submission W env _ st r st' log c account payload
                  Hrun Hin)
        as (d & p & content & files & up & w1 & Hq' & _ & _ & _ & _ & _ & Hpay).
      rewrite Hq in Hq'. injection Hq' as <-. rewrite Hpay. cbn.
      repeat split.
    + intros c account content fname mime Hin.
      destruct (SendCalls.run_upload env _ st _ _ _ _ _ Hrun Hin)
        as (d & p & Hq' & Hp & _ & Hev).
      rewrite Hq in Hq'. injection Hq' as <-.
      cbn in Hp. injection Hp as <-.
      unfold SendLife.upload_of in Hev. injection Hev as _ -> _.
      reflexivity.
Qed.

Lemma workflow_send_request_witness :
  let st := Tests.send_ready in
  let invocation := prepare_fax_data MoreTests.no_float MoreTests.a_state in
  let run := FaxPlusTool._run MoreTests.accepting (tool_input invocation) st in
  let payload :=
    {| fax := {| to := VStr "+14155552671"; FaxPlus.subject := VStr "Invoice";
                 comment := VStr "Automated fax of invoice document";
                 file_id := "file-1";
                 direction := OUTBOUND; category := GENERAL |} |} in
  json_loads MoreTests.accepting (tool_input invocation)
    = Return (fax_data MoreTests.a_state)
  /\ In (SendFax (ApiClient 1 "key") "acct" payload) (snd run)
  /\ FaxPlus.comment (fax payload) = VStr "Automated fax of invoice document".
Proof.
  intros st invocation run payload. split; [reflexivity|].
  assert (Hin : In (SendFax (ApiClient 1 "key") "acct" payload) (snd run)).
  { right. left. reflexivity. }
  split; [exact Hin|].
  destruct (workflow_send_request MoreTests.accepting st
              (state := MoreTests.a_state) eq_refl) as (_ & _ & Hcalls).
  destruct (Hcalls (fst (fst run)) (snd (fst run)) (snd run) eq_refl)
    as [Hsend _].
  exact (proj2 (proj2 (Hsend _ _ _ Hin))).
Defined.

(** X16. [generate_subject] raises nothing - the index 1 after the ":" test
    is always in range - and the subject it stores has no white space left at
    either end.  Without a colon in the answer of the model the subject is the
    answer, stripped.  The subject is also what the appended message shows
    after "Generated subject: ", and the other fields of the state are
    kept. *)
Theorem generated_subject_is_stripped (content : string) (state : State) :
  exists s,
    generate_subject content state =
      Return (with_subject state
                (messages state ++ [AIMessage ("Generated subject: " ++ s)])%list
                s)
    /\ strip s = s
    /\ (contains ":" (strip content) = false -> s = strip content).
Proof.
  unfold generate_subject.
  destruct (contains ":" (strip content)) eqn:Hc.
  - assert (Hne : strip content <> "").
    { intros H. rewrite H in Hc. discriminate Hc. }
    destruct (@split_once_second_piece ":" (strip content) "" Hc Hne) as [x Hx].
    unfold split_once. rewrite Hx.
    exists (strip x). split; [reflexivity|].
    split; [apply strip_idempotent|discriminate].
  - exists (strip content). split; [reflexivity|].
    split; [apply strip_idempotent|reflexivity].
Qed.

Lemma generated_subject_is_stripped_witness :
  contains ":" (strip "  Quarterly invoice ") = false
  /\ exists s,
       generate_subject "  Quarterly invoice " MoreTests.a_state =
         Return (with_subject MoreTests.a_state
                   (messages MoreTests.a_state
                      ++ [AIMessage ("Generated subject: " ++ s)])%list s)
       /\ s = "Quarterly invoice".
Proof.
  split; [reflexivity|].
  destruct (generated_subject_is_stripped "  Quarterly invoice "
              MoreTests.a_state) as (s & Hrun & _ & Hs).
  exists s. split; [exact Hrun|]. rewrite (Hs eq_refl). reflexivity.
Defined.

End WorkflowFacts.
